(** * XRT xbmgmt hotplug: a shallow embedding of [cmd_hotplug.cpp]

    The file embeds the managed-hotplug sub-command of [xbmgmt]
    (src/runtime_src/core/pcie/tools/xbmgmt/cmd_hotplug.cpp): the option
    loop and the offline/online sequencing of [hotplugHandler], the
    write-then-poll protocol of [shutdownDevice], [removeDevice], the
    two-level directory search of [findXilinxRootPort] and
    [hotplugRescan].

    Integers of the program ([int], [unsigned int]) are [Z]; no value of
    the program leaves the 32-bit range (the only counter, [wait], stays
    below [POLL_TIMEOUT]).  Paths and attribute texts are [string].
    What the program asks of the outside world (libc's [getopt_long], the
    [pcidev] device handle, sysfs, the confirmation prompt) is a record of
    answers, [Host]; what the program does to the outside world is logged
    as a list of [Event]s, in program order. *)

From Stdlib Require Import ZArith List String Ascii Bool Lia.
Import ListNotations.

Local Open Scope string_scope.
Local Open Scope Z_scope.

(** ** Constants of the translation unit *)

Definition SYSFS_PATH : string := "/sys/bus/pci/devices".
Definition XILINX_VENDOR : string := "0x10ee".
Definition XILINX_US : string := "0x9134".
Definition POLL_TIMEOUT : Z := 60.

(** [<climits>] and [<errno.h>] on Linux. *)
Definition UINT_MAX : Z := 4294967295.
Definition ENOENT : Z := 2.
Definition EINVAL : Z := 22.
Definition ETIMEDOUT : Z := 110.
Definition ECANCELED : Z := 125.
Definition EACCES : Z := 13.

(** The values [getopt_long] returns for the two entries of [opts]:
    the character literals ['0'] and ['1']. *)
Definition OPT_OFFLINE : Z := 48.
Definition OPT_ONLINE : Z := 49.

(** ** The library operations the program uses *)

Module Lib.

(** [std::string::empty]. *)
Definition empty (s : string) : bool :=
  match s with
  | EmptyString => true
  | String _ _ => false
  end.

(** [boost::filesystem::path]: the native string. *)
Definition path := string.

Definition is_separator (c : ascii) : bool := Ascii.eqb c "/"%char.

Definition starts_with_separator (s : string) : bool :=
  match s with
  | EmptyString => false
  | String c _ => is_separator c
  end.

Fixpoint ends_with_separator (s : string) : bool :=
  match s with
  | EmptyString => false
  | String c EmptyString => is_separator c
  | String _ rest => ends_with_separator rest
  end.

(** [path::operator/=]: nothing is appended for an empty right operand;
    a separator is inserted unless the left operand is empty or ends
    with one, or the right operand starts with one. *)
Definition path_append (p q : path) : path :=
  if empty q then p
  else if starts_with_separator q then p ++ q
  else if empty p || ends_with_separator p then p ++ q
  else p ++ "/" ++ q.

(** [std::isspace] in the "C" locale: space and \t \n \v \f \r. *)
Definition isspace (c : ascii) : bool :=
  let n := nat_of_ascii c in
  (Nat.eqb n 32 || (Nat.leb 9 n && Nat.leb n 13))%bool.

Fixpoint skip_ws (s : string) : string :=
  match s with
  | EmptyString => EmptyString
  | String c rest => if isspace c then skip_ws rest else s
  end.

Fixpoint take_word (s : string) : string :=
  match s with
  | EmptyString => EmptyString
  | String c rest => if isspace c then EmptyString else String c (take_word rest)
  end.

(** [stream >> str] on a stream holding [text]: leading white space is
    skipped; when nothing is left the extraction fails and [str] keeps
    its value, otherwise [str] becomes the next word. *)
Definition extract (text : string) (str : string) : string :=
  match skip_ws text with
  | EmptyString => str
  | String c rest => take_word (String c rest)
  end.

End Lib.

(** ** The pseudo-filesystem tree under [SYSFS_PATH] *)

(** What the program meets when it looks for an attribute file of a
    directory entry. *)
Inductive attr_file : Type :=
| NoFile                    (* [exists] answers false *)
| OpenFails                 (* the file exists, the stream is not readable *)
| Holds (text : string)     (* the file exists and holds [text] *)
| Throws.                   (* the stream raises [ifstream::failure] *)

(** An entry met by the inner [directory_iterator]. *)
Record dirent : Type := mk_dirent {
  d_name : string;
  d_is_directory : bool;
  d_vendor : attr_file;
  d_device : attr_file
}.

(** An entry met by the outer [directory_iterator], with its entries in
    the order of the iteration. *)
Record bridge : Type := mk_bridge {
  b_path : Lib.path;
  b_entries : list dirent
}.

(** ** The outside world *)

(** Outcome of an operation on the [ofstream] of [hotplugRescan]; a
    failure comes with the value [errno] has when the program reads it. *)
Inductive io_outcome : Type :=
| IoOk
| IoFail (errno : Z)
| IoThrow (errno : Z).

Record Host : Type := mk_Host {
  (** [bdf2index(optarg)] *)
  bdf2index : string -> Z;
  (** [canProceed()] *)
  canProceed : bool;
  (** [boost::filesystem::exists(dev->get_sysfs_path("", entry))] *)
  sysfs_exists : Z -> bool -> string -> bool;
  (** [dev->sysfs_put("", entry, errmsg, value)]: the [errmsg] it leaves *)
  sysfs_put : Z -> bool -> string -> string -> string;
  (** [dev->sysfs_get<int>("", entry, errmsg, status, EINVAL)] in the
      iteration where [wait] has the given value: [errmsg] and [status] *)
  sysfs_get : Z -> bool -> string -> Z -> string * Z;
  (** the entries of [SYSFS_PATH], in the order of the iteration *)
  sysfs_tree : list bridge;
  (** [ofile.open(path)] and [ofile << 1; ofile.flush()] *)
  ofs_open : Lib.path -> io_outcome;
  ofs_write : Lib.path -> io_outcome
}.

(** What the program does, in program order. *)
Inductive Event : Type :=
| EvPrompt
| EvExists (index : Z) (is_userpf : bool) (entry : string)
| EvPut (index : Z) (is_userpf : bool) (entry value : string)
| EvSleep (seconds : Z)
| EvGet (index : Z) (is_userpf : bool) (entry : string)
| EvScan (root : Lib.path)
| EvOpen (p : Lib.path)
| EvWrite (p : Lib.path) (value : string)
| EvClose (p : Lib.path).

(** ** A small monad: a result and the events of the run, or [None] when
    the fuel of a loop is spent. *)

Definition M (A : Type) : Type := option (A * list Event).

Definition ret {A : Type} (a : A) : M A := Some (a, []).

Definition bind {A B : Type} (m : M A) (f : A -> M B) : M B :=
  match m with
  | None => None
  | Some (a, t1) =>
      match f a with
      | None => None
      | Some (b, t2) => Some (b, (t1 ++ t2)%list)
      end
  end.

Definition emit (e : Event) : M unit := Some (tt, [e]).

Notation "x <- m ;; k" := (bind m (fun x => k))
  (at level 61, m at next level, right associativity).
Notation "m ;;; k" := (bind m (fun _ => k))
  (at level 61, right associativity).

(** ** [findXilinxRootPort] *)

(** One attribute of the [try] block: [if (exists(p)) { ifstream file(p);
    file >> id; file.close(); }].  [None] when the stream throws. *)
Definition read_attr (f : attr_file) (id : string) : option string :=
  match f with
  | NoFile => Some id
  | OpenFails => Some id
  | Holds text => Some (Lib.extract text id)
  | Throws => None
  end.

(** The inner [for] loop over the entries of [rootPortPath].  The strings
    [vendor_id] and [device_id] are declared outside both loops: they are
    threaded through and returned. *)
Fixpoint scan_entries (rootPortPath : Lib.path) (entries : list dirent)
    (vendor_id device_id : string) : option Lib.path * (string * string) :=
  match entries with
  | [] => (None, (vendor_id, device_id))
  | jfile :: rest =>
      if negb (d_is_directory jfile) then
        scan_entries rootPortPath rest vendor_id device_id
      else
        match read_attr (d_vendor jfile) vendor_id with
        | None => scan_entries rootPortPath rest vendor_id device_id
        | Some vendor_id' =>
            match read_attr (d_device jfile) device_id with
            | None => scan_entries rootPortPath rest vendor_id' device_id
            | Some device_id' =>
                if (String.eqb vendor_id' XILINX_VENDOR
                    && String.eqb device_id' XILINX_US)%bool
                then (Some rootPortPath, (vendor_id', device_id'))
                else scan_entries rootPortPath rest vendor_id' device_id'
            end
        end
  end.

(** The outer [for] loop; [rootPortPath] is empty when it ends. *)
Fixpoint scan_bridges (files : list bridge) (vendor_id device_id : string)
    : Lib.path :=
  match files with
  | [] => ""
  | file :: rest =>
      match scan_entries (b_path file) (b_entries file) vendor_id device_id with
      | (Some rootPortPath, _) => rootPortPath
      | (None, (vendor_id', device_id')) => scan_bridges rest vendor_id' device_id'
      end
  end.

Definition findXilinxRootPort (tree : list bridge) : Lib.path :=
  scan_bridges tree "" "".

Section Program.

Variable host : Host.

(** ** [hotplugRescan] *)

Definition hotplugRescan : M Z :=
  emit (EvScan SYSFS_PATH) ;;;
  let sysfs_path := Lib.path_append (findXilinxRootPort (sysfs_tree host)) "rescan" in
  if Lib.empty sysfs_path then ret (- ENOENT)
  else
    emit (EvOpen sysfs_path) ;;;
    match ofs_open host sysfs_path with
    | IoThrow errno => emit (EvClose sysfs_path) ;;; ret (- errno)
    | IoFail errno => ret (- errno)
    | IoOk =>
        emit (EvWrite sysfs_path "1") ;;;
        match ofs_write host sysfs_path with
        | IoThrow errno => emit (EvClose sysfs_path) ;;; ret (- errno)
        | IoFail errno => emit (EvClose sysfs_path) ;;; ret (- errno)
        | IoOk => emit (EvClose sysfs_path) ;;; ret 0
        end
    end.

(** ** [shutdownDevice] *)

(** The [do ... while (++wait < POLL_TIMEOUT)] loop, entered with the
    current value of [wait]. *)
Fixpoint poll (fuel : nat) (index : Z) (is_userpf : bool) (wait : Z) : M Z :=
  match fuel with
  | O => None
  | S fuel' =>
      emit (EvSleep 1) ;;;
      emit (EvGet index is_userpf "shutdown") ;;;
      let '(errmsg, shutdownStatus) := sysfs_get host index is_userpf "shutdown" wait in
      if negb (Lib.empty errmsg) then ret (- EINVAL)
      else if shutdownStatus =? 1 then ret 0
      else
        let wait := wait + 1 in
        if wait <? POLL_TIMEOUT then poll fuel' index is_userpf wait
        else ret (- ETIMEDOUT)
  end.

Definition shutdownDevice (index : Z) (is_userpf : bool) : M Z :=
  emit (EvExists index is_userpf "shutdown") ;;;
  if negb (sysfs_exists host index is_userpf "shutdown") then ret (- ENOENT)
  else
    emit (EvPut index is_userpf "shutdown" "1") ;;;
    if negb (Lib.empty (sysfs_put host index is_userpf "shutdown" "1"))
    then ret (- EINVAL)
    else poll (Z.to_nat POLL_TIMEOUT) index is_userpf 0.

(** ** [removeDevice] *)

Definition removeDevice (index : Z) (is_userpf : bool) : M Z :=
  emit (EvPut index is_userpf "remove" "1") ;;;
  if negb (Lib.empty (sysfs_put host index is_userpf "remove" "1"))
  then ret (- EINVAL)
  else ret 0.

(** ** [hotplugHandler] *)

(** How the option loop ends: with a [return], or by [break] with the
    values of [index], [isRemove] and [isRescan]. *)
Inductive options : Type :=
| OptReturn (code : Z)
| OptBreak (index isRemove isRescan : Z).

(** The [while (true)] loop over the successive answers of
    [getopt_long], each with the [optarg] it sets; after the last
    answer of the list [getopt_long] returns -1. *)
Fixpoint option_loop (answers : list (Z * string)) (index isRemove isRescan : Z)
    : options :=
  match answers with
  | [] => OptBreak index isRemove isRescan
  | (opt, optarg) :: rest =>
      if opt =? -1 then OptBreak index isRemove isRescan
      else if opt =? OPT_OFFLINE then
        let index := bdf2index host optarg in
        if index =? UINT_MAX then OptReturn (- ENOENT)
        else option_loop rest index 1 isRescan
      else if opt =? OPT_ONLINE then
        option_loop rest index isRemove 1
      else OptReturn (- EINVAL)
  end.

(** The statements of [hotplugHandler] from [if (isRemove)] to the
    end, with [ret] still 0. *)
Definition offline_online (index isRemove isRescan : Z) : M Z :=
  ret_offline <-
    (if negb (isRemove =? 0) then
       ret1 <- shutdownDevice index true ;;
       if negb (ret1 =? 0) then
         if ret1 =? - ENOENT then ret (Some 0)
         else ret (Some (- EINVAL))
       else
         ret2 <- removeDevice index true ;;
         if negb (ret2 =? 0) then ret (Some ret2)
         else
           ret3 <- removeDevice index false ;;
           if negb (ret3 =? 0) then ret (Some ret3)
           else ret None
     else ret None) ;;
  match ret_offline with
  | Some code => ret code
  | None =>
      if negb (isRescan =? 0) then
        ret4 <- hotplugRescan ;;
        ret ret4
      else ret 0
  end.

(** [hotplugHandler(argc, argv)], past [sudoOrDie()]; [argv] is seen
    through the answers of [getopt_long]. *)
Definition hotplugHandler (argc : Z) (answers : list (Z * string)) : M Z :=
  if argc <? 2 then ret (- EINVAL)
  else
    match option_loop answers UINT_MAX 0 0 with
    | OptReturn code => ret code
    | OptBreak index isRemove isRescan =>
        emit EvPrompt ;;;
        if negb (canProceed host) then ret (- ECANCELED)
        else offline_online index isRemove isRescan
    end.

End Program.

(** ** Vocabulary of the statements *)

(** A write of the "remove" attribute of the given function. *)
Definition is_remove (is_userpf : bool) (e : Event) : bool :=
  match e with
  | EvPut _ pf entry _ => (String.eqb entry "remove" && Bool.eqb pf is_userpf)%bool
  | _ => false
  end.

Definition any_remove (e : Event) : bool :=
  (is_remove true e || is_remove false e)%bool.

(** Events of the offline path (device handle) and of the online path
    (directory walk and rescan stream). *)
Definition offline_event (e : Event) : bool :=
  match e with
  | EvExists _ _ _ | EvPut _ _ _ _ | EvSleep _ | EvGet _ _ _ => true
  | _ => false
  end.

Definition online_event (e : Event) : bool :=
  match e with
  | EvScan _ | EvOpen _ | EvWrite _ _ | EvClose _ => true
  | _ => false
  end.

(** The log of [n] iterations of the poll loop. *)
Definition poll_log (index : Z) (is_userpf : bool) (n : nat) : list Event :=
  List.concat (repeat [EvSleep 1; EvGet index is_userpf "shutdown"] n).

(** The word a fresh string would receive from an attribute file. *)
Definition attr_word (f : attr_file) : option string :=
  match f with
  | Holds text =>
      match Lib.skip_ws text with
      | EmptyString => None
      | String c rest => Some (Lib.take_word (String c rest))
      end
  | _ => None
  end.

Definition attr_is (f : attr_file) (id : string) : bool :=
  match attr_word f with
  | Some w => String.eqb w id
  | None => false
  end.

(** A child directory whose own attributes are the known pair. *)
Definition qualifies (c : dirent) : bool :=
  (d_is_directory c && attr_is (d_vendor c) XILINX_VENDOR
   && attr_is (d_device c) XILINX_US)%bool.

Definition has_qualifying_child (b : bridge) : bool :=
  existsb qualifies (b_entries b).

(** The locator as the specification words it: the first top-level entry
    with a qualifying child, the empty path when there is none. *)
Fixpoint find_root_port_spec (tree : list bridge) : Lib.path :=
  match tree with
  | [] => ""
  | b :: rest =>
      if has_qualifying_child b then b_path b else find_root_port_spec rest
  end.

Definition has_word (f : attr_file) : bool :=
  match attr_word f with
  | Some _ => true
  | None => false
  end.

(** A directory entry is settled when an attribute that reads as the
    known identifier never comes with an unread sibling attribute. *)
Definition settled (c : dirent) : bool :=
  (negb (d_is_directory c)
   || ((negb (attr_is (d_vendor c) XILINX_VENDOR) || has_word (d_device c))
       && (negb (attr_is (d_device c) XILINX_US) || has_word (d_vendor c))))%bool.

Definition settled_tree (tree : list bridge) : bool :=
  forallb (fun b => forallb settled (b_entries b)) tree.

(** The path [hotplugRescan] opens. *)
Definition rescan_path (host : Host) : Lib.path :=
  Lib.path_append (findXilinxRootPort (sysfs_tree host)) "rescan".

(** The online block of [hotplugHandler], entered with [ret] equal to 0. *)
Definition online_part (host : Host) (isRescan : Z) : M Z :=
  if isRescan =? 0 then ret 0 else hotplugRescan host.

(** How the offline block of [hotplugHandler] ends: with a [return] of a
    code, or by falling through to the online block ([None]); and the
    log of the block. *)
Inductive offline_run (host : Host) (index : Z) : option Z -> list Event -> Prop :=
| run_absent (t1 : list Event) :
    shutdownDevice host index true = Some (- ENOENT, t1) ->
    sysfs_exists host index true "shutdown" = false ->
    offline_run host index (Some 0) t1
| run_shutdown_failed (ret1 : Z) (t1 : list Event) :
    shutdownDevice host index true = Some (ret1, t1) ->
    ret1 <> 0 -> ret1 <> - ENOENT ->
    offline_run host index (Some (- EINVAL)) t1
| run_user_failed (t1 : list Event) :
    shutdownDevice host index true = Some (0, t1) ->
    Lib.empty (sysfs_put host index true "remove" "1") = false ->
    offline_run host index (Some (- EINVAL))
                (t1 ++ [EvPut index true "remove" "1"])
| run_mgmt_failed (t1 : list Event) :
    shutdownDevice host index true = Some (0, t1) ->
    Lib.empty (sysfs_put host index true "remove" "1") = true ->
    Lib.empty (sysfs_put host index false "remove" "1") = false ->
    offline_run host index (Some (- EINVAL))
                (t1 ++ [EvPut index true "remove" "1"; EvPut index false "remove" "1"])
| run_removed (t1 : list Event) :
    shutdownDevice host index true = Some (0, t1) ->
    Lib.empty (sysfs_put host index true "remove" "1") = true ->
    Lib.empty (sysfs_put host index false "remove" "1") = true ->
    offline_run host index None
                (t1 ++ [EvPut index true "remove" "1"; EvPut index false "remove" "1"]).

(** No answer of [getopt_long] is one of the two switches. *)
Definition no_switch (answers : list (Z * string)) : bool :=
  forallb (fun a => negb (fst a =? OPT_OFFLINE) && negb (fst a =? OPT_ONLINE))%bool
          answers.

(** The strings of the locator are not the known pair. *)
Definition no_match (vendor_id device_id : string) : Prop :=
  (String.eqb vendor_id XILINX_VENDOR && String.eqb device_id XILINX_US)%bool = false.

(** A computation run after the events [t]. *)
Definition prefix {A : Type} (t : list Event) (m : M A) : M A :=
  match m with
  | None => None
  | Some (a, t') => Some (a, (t ++ t')%list)
  end.

(** ** Concrete hosts and trees *)

Definition newline : string := String (ascii_of_nat 10) EmptyString.

(** A host where every device write succeeds, the status read in the
    iteration with counter [w] is [status w], and the rescan stream
    opens and writes. *)
Definition plain_host (confirm present : bool) (status : Z -> Z)
    (tree : list bridge) : Host :=
  mk_Host (fun _ => 0) confirm (fun _ _ _ => present)
          (fun _ _ _ _ => "") (fun _ _ _ w => ("", status w))
          tree (fun _ => IoOk) (fun _ => IoOk).

(** The same, with a rescan stream that cannot be opened: [errno] is
    [EACCES] when the program reads it. *)
Definition unwritable_host (tree : list bridge) : Host :=
  mk_Host (fun _ => 0) true (fun _ _ _ => true)
          (fun _ _ _ _ => "") (fun _ _ _ _ => ("", 0))
          tree (fun _ => IoFail EACCES) (fun _ => IoOk).

(** Two top-level entries.  The child of the first reads as a foreign
    vendor with the known device identifier; the child of the second
    reads as the known vendor and has no device attribute. *)
Definition stale_device_tree : list bridge :=
  [ mk_bridge "/sys/bus/pci/devices/0000:00:01.0"
      [ mk_dirent "0000:01:00.0" true
          (Holds ("0x8086" ++ newline)) (Holds ("0x9134" ++ newline)) ];
    mk_bridge "/sys/bus/pci/devices/0000:00:02.0"
      [ mk_dirent "0000:02:00.0" true
          (Holds ("0x10ee" ++ newline)) NoFile ] ].

(** One top-level entry with two children: the first reads as the known
    vendor with a foreign device identifier; the vendor attribute of the
    second cannot be read and its device attribute is the known one. *)
Definition stale_vendor_tree : list bridge :=
  [ mk_bridge "/sys/bus/pci/devices/0000:00:03.0"
      [ mk_dirent "0000:03:00.0" true
          (Holds ("0x10ee" ++ newline)) (Holds ("0x5000" ++ newline));
        mk_dirent "0000:03:00.1" true
          OpenFails (Holds ("0x9134" ++ newline)) ] ].

(** One top-level entry whose only child is the accelerator. *)
Definition accelerator_tree : list bridge :=
  [ mk_bridge "/sys/bus/pci/devices/0000:00:01.0"
      [ mk_dirent "0000:01:00.0" true
          (Holds ("0x10ee" ++ newline)) (Holds ("0x9134" ++ newline)) ] ].

(** One top-level entry whose only child is a foreign device. *)
Definition foreign_tree : list bridge :=
  [ mk_bridge "/sys/bus/pci/devices/0000:00:1f.0"
      [ mk_dirent "0000:04:00.0" true
          (Holds ("0x8086" ++ newline)) (Holds ("0x1234" ++ newline)) ] ].

(** ** Vocabulary of the further properties *)

Definition is_get (e : Event) : bool :=
  match e with EvGet _ _ _ => true | _ => false end.

Definition is_sleep (e : Event) : bool :=
  match e with EvSleep _ => true | _ => false end.

Definition is_put (e : Event) : bool :=
  match e with EvPut _ _ _ _ => true | _ => false end.

Definition is_write (e : Event) : bool :=
  match e with EvWrite _ _ => true | _ => false end.

Definition is_close (e : Event) : bool :=
  match e with EvClose _ => true | _ => false end.

(** The seconds slept in a log. *)
Fixpoint slept (t : list Event) : Z :=
  match t with
  | [] => 0
  | EvSleep seconds :: rest => seconds + slept rest
  | _ :: rest => slept rest
  end.

(** The three attribute writes of the offline block, in program order. *)
Definition offline_writes (index : Z) : list Event :=
  [EvPut index true "shutdown" "1";
   EvPut index true "remove" "1";
   EvPut index false "remove" "1"].

(** The device function and attribute an event of the device handle is
    about. *)
Definition device_target (e : Event) : option (Z * bool * string) :=
  match e with
  | EvExists index is_userpf entry => Some (index, is_userpf, entry)
  | EvPut index is_userpf entry _ => Some (index, is_userpf, entry)
  | EvGet index is_userpf entry => Some (index, is_userpf, entry)
  | _ => None
  end.

Definition is_offline_switch (a : Z * string) : bool := fst a =? OPT_OFFLINE.
Definition is_online_switch (a : Z * string) : bool := fst a =? OPT_ONLINE.

(** An answer of [getopt_long] the option loop passes: the online
    switch, or the offline switch with an argument [bdf2index]
    resolves. *)
Definition recognized (host : Host) (a : Z * string) : bool :=
  ((is_offline_switch a && negb (bdf2index host (snd a) =? UINT_MAX))
   || is_online_switch a)%bool.

(** The index the last offline switch of [answers] resolves to,
    [index] when there is none. *)
Definition last_index (host : Host) (answers : list (Z * string)) (index : Z) : Z :=
  fold_left (fun i a => if is_offline_switch a then bdf2index host (snd a) else i)
            answers index.

(** A top-level entry without the entries that are not directories. *)
Definition dirs_only (b : bridge) : bridge :=
  mk_bridge (b_path b) (filter d_is_directory (b_entries b)).

(** A host given by its answers: the resolution of a bdf, the
    confirmation, the presence of the "shutdown" attribute, the message
    left by a write to the attribute of a function, the status reads,
    the tree and the outcomes of the rescan stream. *)
Definition scripted_host (resolve : string -> Z) (confirm present : bool)
    (put : bool -> string -> string) (get : Z -> string * Z)
    (tree : list bridge) (opened written : io_outcome) : Host :=
  mk_Host resolve confirm (fun _ _ _ => present)
          (fun _ is_userpf entry _ => put is_userpf entry)
          (fun _ _ _ w => get w)
          tree (fun _ => opened) (fun _ => written).

(** * Properties *)

(** ** The monad *)

Lemma emit_bind {A : Type} (e : Event) (k : M A) :
  (emit e ;;; k) = prefix [e] k.
Proof. reflexivity. Qed.

Lemma ret_bind {A B : Type} (a : A) (f : A -> M B) :
  (x <- ret a ;; f x) = f a.
Proof.
  unfold bind, ret. destruct (f a) as [[b t]|]; reflexivity.
Qed.

Lemma prefix_Some {A : Type} (t : list Event) (a : A) (t' : list Event) :
  prefix t (Some (a, t')) = Some (a, (t ++ t')%list).
Proof. reflexivity. Qed.

Lemma bind_Some {A B : Type} (a : A) (t : list Event) (f : A -> M B) :
  (x <- Some (a, t) ;; f x) = prefix t (f a).
Proof. reflexivity. Qed.

(** A goal [exists code t, run = Some (code, t) /\ P code t] whose run is
    already a value: give the value, keep [P]. *)
Ltac ran := eexists _, _; split; [reflexivity|].

(** ** The poll loop *)

Section Poll.

Variable host : Host.
Variables (index : Z) (is_userpf : bool).

Lemma poll_S (fuel : nat) (wait : Z) :
  poll host (S fuel) index is_userpf wait =
  prefix [EvSleep 1; EvGet index is_userpf "shutdown"]
    (if negb (Lib.empty (fst (sysfs_get host index is_userpf "shutdown" wait)))
     then ret (- EINVAL)
     else if snd (sysfs_get host index is_userpf "shutdown" wait) =? 1 then ret 0
     else if wait + 1 <? POLL_TIMEOUT
          then poll host fuel index is_userpf (wait + 1)
          else ret (- ETIMEDOUT)).
Proof.
  simpl.
  destruct (sysfs_get host index is_userpf "shutdown" wait) as [errmsg st]. simpl.
  destruct (Lib.empty errmsg); simpl; [ | reflexivity ].
  destruct (st =? 1); simpl; [ reflexivity | ].
  destruct (wait + 1 <? POLL_TIMEOUT); simpl; [ | reflexivity ].
  destruct (poll host fuel index is_userpf (wait + 1)) as [[r t]|]; reflexivity.
Qed.

(** With fuel for the iterations that are left, the loop returns; what
    it returns is one of three codes, it logs sleeps and reads only,
    and it returns 0 only on a read of exactly 1. *)
Lemma poll_returns (fuel : nat) :
  forall wait,
    0 <= wait < POLL_TIMEOUT ->
    POLL_TIMEOUT - wait <= Z.of_nat fuel ->
    exists code n,
      poll host fuel index is_userpf wait = Some (code, poll_log index is_userpf n)
      /\ (0 < n)%nat
      /\ Z.of_nat n <= POLL_TIMEOUT - wait
      /\ (code = 0 \/ code = - EINVAL \/ code = - ETIMEDOUT)
      /\ (code = 0 ->
          exists w, wait <= w < POLL_TIMEOUT
                    /\ sysfs_get host index is_userpf "shutdown" w = (EmptyString, 1)).
Proof.
  induction fuel as [|fuel IH]; intros wait Hw Hfuel.
  - unfold POLL_TIMEOUT in *. lia.
  - rewrite poll_S.
    destruct (sysfs_get host index is_userpf "shutdown" wait) as [errmsg st] eqn:Hst.
    simpl fst. simpl snd.
    destruct (Lib.empty errmsg) eqn:Herr; simpl negb; cbv iota.
    + destruct (st =? 1) eqn:Hone.
      * exists 0, 1%nat.
        refine (conj eq_refl (conj _ (conj _ (conj (or_introl eq_refl) _)))).
        -- lia.
        -- unfold POLL_TIMEOUT in *. lia.
        -- intros _. exists wait. split; [lia|].
           apply Z.eqb_eq in Hone. subst st.
           destruct errmsg; [exact Hst|discriminate].
      * destruct (wait + 1 <? POLL_TIMEOUT) eqn:Hlt.
        -- apply Z.ltb_lt in Hlt.
           destruct (IH (wait + 1)) as (code & n & Hrun & Hn & Hle & Hcode & Hzero);
             [lia | lia | ].
           exists code, (S n). rewrite Hrun.
           refine (conj eq_refl (conj _ (conj _ (conj Hcode _)))).
           ++ lia.
           ++ lia.
           ++ intros Hc. destruct (Hzero Hc) as (w & Hw' & Hs).
              exists w. split; [lia|assumption].
        -- exists (- ETIMEDOUT), 1%nat.
           refine (conj eq_refl (conj _ (conj _ (conj (or_intror (or_intror eq_refl)) _)))).
           ++ lia.
           ++ unfold POLL_TIMEOUT in *. lia.
           ++ unfold ETIMEDOUT. lia.
    + exists (- EINVAL), 1%nat.
      refine (conj eq_refl (conj _ (conj _ (conj (or_intror (or_introl eq_refl)) _)))).
      * lia.
      * unfold POLL_TIMEOUT in *. lia.
      * unfold EINVAL. lia.
Qed.

(** When every read from [wait] on succeeds with a value other than 1,
    the loop runs to the bound and returns the timed-out code. *)
Lemma poll_times_out (fuel : nat) :
  forall wait,
    0 <= wait < POLL_TIMEOUT ->
    POLL_TIMEOUT - wait <= Z.of_nat fuel ->
    (forall w, wait <= w < POLL_TIMEOUT ->
               fst (sysfs_get host index is_userpf "shutdown" w) = EmptyString
               /\ snd (sysfs_get host index is_userpf "shutdown" w) <> 1) ->
    poll host fuel index is_userpf wait =
    Some (- ETIMEDOUT, poll_log index is_userpf (Z.to_nat (POLL_TIMEOUT - wait))).
Proof.
  induction fuel as [|fuel IH]; intros wait Hw Hfuel Hall.
  - unfold POLL_TIMEOUT in *. lia.
  - rewrite poll_S.
    destruct (Hall wait) as [Herr Hst]; [lia|].
    rewrite Herr. simpl negb. cbv iota.
    apply Z.eqb_neq in Hst. rewrite Hst.
    destruct (wait + 1 <? POLL_TIMEOUT) eqn:Hlt.
    + apply Z.ltb_lt in Hlt.
      rewrite IH; [ | lia | lia | intros w Hw'; apply Hall; lia ].
      rewrite prefix_Some. f_equal. f_equal.
      replace (Z.to_nat (POLL_TIMEOUT - wait))
        with (S (Z.to_nat (POLL_TIMEOUT - (wait + 1)))) by lia.
      reflexivity.
    + apply Z.ltb_ge in Hlt.
      replace (Z.to_nat (POLL_TIMEOUT - wait)) with 1%nat by lia.
      reflexivity.
Qed.

End Poll.

(** ** Logs of the poll loop *)

Lemma poll_log_S (index : Z) (is_userpf : bool) (n : nat) :
  poll_log index is_userpf (S n) =
  EvSleep 1 :: EvGet index is_userpf "shutdown" :: poll_log index is_userpf n.
Proof. reflexivity. Qed.

Lemma poll_log_offline (index : Z) (is_userpf : bool) (n : nat) :
  forallb offline_event (poll_log index is_userpf n) = true.
Proof.
  induction n as [|n IH]; [reflexivity|].
  rewrite poll_log_S. simpl. exact IH.
Qed.

Lemma poll_log_no_remove (index : Z) (is_userpf : bool) (n : nat) :
  filter any_remove (poll_log index is_userpf n) = [].
Proof.
  induction n as [|n IH]; [reflexivity|].
  rewrite poll_log_S. simpl. exact IH.
Qed.

Lemma poll_log_reads (index : Z) (is_userpf : bool) (n : nat) :
  List.length (filter (fun e => match e with EvGet _ _ _ => true | _ => false end)
                 (poll_log index is_userpf n)) = n.
Proof.
  induction n as [|n IH]; [reflexivity|].
  rewrite poll_log_S. simpl. now rewrite IH.
Qed.

(** ** The controllers, case by case *)

Section Controllers.

Variable host : Host.

Lemma shutdownDevice_run (index : Z) (is_userpf : bool) :
  shutdownDevice host index is_userpf =
  if negb (sysfs_exists host index is_userpf "shutdown")
  then Some (- ENOENT, [EvExists index is_userpf "shutdown"])
  else if negb (Lib.empty (sysfs_put host index is_userpf "shutdown" "1"))
  then Some (- EINVAL, [EvExists index is_userpf "shutdown";
                        EvPut index is_userpf "shutdown" "1"])
  else prefix [EvExists index is_userpf "shutdown";
               EvPut index is_userpf "shutdown" "1"]
              (poll host (Z.to_nat POLL_TIMEOUT) index is_userpf 0).
Proof.
  unfold shutdownDevice. rewrite emit_bind.
  destruct (sysfs_exists host index is_userpf "shutdown"); simpl negb; cbv iota;
    [ | reflexivity ].
  rewrite emit_bind.
  destruct (Lib.empty (sysfs_put host index is_userpf "shutdown" "1"));
    simpl negb; cbv iota; [ | reflexivity ].
  destruct (poll host (Z.to_nat POLL_TIMEOUT) index is_userpf 0) as [[r t]|];
    reflexivity.
Qed.

Lemma removeDevice_run (index : Z) (is_userpf : bool) :
  removeDevice host index is_userpf =
  Some (if Lib.empty (sysfs_put host index is_userpf "remove" "1")
        then 0 else - EINVAL,
        [EvPut index is_userpf "remove" "1"]).
Proof.
  unfold removeDevice. rewrite emit_bind.
  destruct (Lib.empty (sysfs_put host index is_userpf "remove" "1")); reflexivity.
Qed.

(** [shutdownDevice] returns; its log is made of offline events, none
    of them a remove; the code tells which way it went. *)
Lemma shutdownDevice_returns (index : Z) (is_userpf : bool) :
  exists code t,
    shutdownDevice host index is_userpf = Some (code, t)
    /\ forallb offline_event t = true
    /\ filter any_remove t = []
    /\ (code = 0 \/ code = - ENOENT \/ code = - EINVAL \/ code = - ETIMEDOUT)
    /\ (code = - ENOENT <-> sysfs_exists host index is_userpf "shutdown" = false)
    /\ (code = 0 ->
        exists w, 0 <= w < POLL_TIMEOUT
                  /\ sysfs_get host index is_userpf "shutdown" w = (EmptyString, 1)).
Proof.
  rewrite shutdownDevice_run.
  destruct (sysfs_exists host index is_userpf "shutdown"); simpl negb; cbv iota.
  2:{ exists (- ENOENT), [EvExists index is_userpf "shutdown"].
      split; [reflexivity|]. split; [reflexivity|]. split; [reflexivity|].
      split; [|split].
      - right; left; reflexivity.
      - split; reflexivity.
      - unfold ENOENT; lia. }
  destruct (Lib.empty (sysfs_put host index is_userpf "shutdown" "1"));
    simpl negb; cbv iota.
  2:{ eexists _, _.
      split; [reflexivity|]. split; [reflexivity|]. split; [reflexivity|].
      split; [|split].
      - right; right; left; reflexivity.
      - split; [unfold EINVAL, ENOENT; lia | discriminate].
      - unfold EINVAL; lia. }
  destruct (poll_returns host index is_userpf (Z.to_nat POLL_TIMEOUT) 0)
    as (code & n & Hrun & _ & _ & Hcode & Hzero);
    [ unfold POLL_TIMEOUT; lia | unfold POLL_TIMEOUT; lia | ].
  rewrite Hrun, prefix_Some. eexists _, _.
  split; [reflexivity|]. split; [|split; [|split; [|split; [|exact Hzero]]]].
  - simpl. apply poll_log_offline.
  - simpl. apply poll_log_no_remove.
  - destruct Hcode as [H|[H|H]]; auto.
  - split; [ | discriminate ].
    unfold ENOENT, EINVAL, ETIMEDOUT in *. lia.
Qed.

(** The path [hotplugRescan] tests for emptiness has "rescan"
    appended already: it is never empty. *)
Lemma rescan_path_not_empty (root : Lib.path) :
  Lib.empty (Lib.path_append root "rescan") = false.
Proof.
  unfold Lib.path_append. simpl.
  destruct root as [|c root]; [reflexivity|].
  destruct (Lib.empty (String c root) || Lib.ends_with_separator (String c root))%bool;
    reflexivity.
Qed.

Lemma hotplugRescan_run :
  hotplugRescan host =
  Some (match ofs_open host (rescan_path host) with
        | IoThrow errno =>
            (- errno, [EvScan SYSFS_PATH; EvOpen (rescan_path host);
                       EvClose (rescan_path host)])
        | IoFail errno =>
            (- errno, [EvScan SYSFS_PATH; EvOpen (rescan_path host)])
        | IoOk =>
            (match ofs_write host (rescan_path host) with
             | IoOk => 0
             | IoFail errno => - errno
             | IoThrow errno => - errno
             end,
             [EvScan SYSFS_PATH; EvOpen (rescan_path host);
              EvWrite (rescan_path host) "1"; EvClose (rescan_path host)])
        end).
Proof.
  unfold hotplugRescan.
  rewrite (rescan_path_not_empty (findXilinxRootPort (sysfs_tree host))).
  fold (rescan_path host).
  destruct (ofs_open host (rescan_path host)); try reflexivity.
  destruct (ofs_write host (rescan_path host)); reflexivity.
Qed.

(** [hotplugRescan] returns on every host, after a directory walk and
    an attempt to open [rescan_path]; its log holds online events
    only. *)
Lemma hotplugRescan_returns :
  exists code t,
    hotplugRescan host = Some (code, EvScan SYSFS_PATH :: EvOpen (rescan_path host) :: t)
    /\ forallb online_event t = true
    /\ (code = 0
        \/ exists errno, code = - errno
             /\ (ofs_open host (rescan_path host) = IoFail errno
                 \/ ofs_open host (rescan_path host) = IoThrow errno
                 \/ ofs_write host (rescan_path host) = IoFail errno
                 \/ ofs_write host (rescan_path host) = IoThrow errno)).
Proof.
  rewrite hotplugRescan_run.
  destruct (ofs_open host (rescan_path host)) as [|e|e] eqn:Ho.
  - destruct (ofs_write host (rescan_path host)) as [|e|e] eqn:Hw;
      ran; (split; [reflexivity|]);
      [ left; reflexivity | right; exists e; auto | right; exists e; auto ].
  - ran; (split; [reflexivity|]).
    right; exists e; auto.
  - ran; (split; [reflexivity|]).
    right; exists e; auto.
Qed.

End Controllers.

(** ** The handler, case by case *)

Lemma bind_ret_r {A : Type} (m : M A) : (x <- m ;; ret x) = m.
Proof.
  destruct m as [[a t]|]; [ | reflexivity ].
  unfold bind, ret. now rewrite app_nil_r.
Qed.

Lemma prefix_app {A : Type} (t1 t2 : list Event) (m : M A) :
  prefix t1 (prefix t2 m) = prefix (t1 ++ t2)%list m.
Proof.
  destruct m as [[a t]|]; [ | reflexivity ].
  simpl. now rewrite app_assoc.
Qed.

Lemma bind_prefix {A B : Type} (t : list Event) (m : M A) (f : A -> M B) :
  (x <- prefix t m ;; f x) = prefix t (x <- m ;; f x).
Proof.
  destruct m as [[a t1]|]; [ | reflexivity ].
  simpl. destruct (f a) as [[b t2]|]; [ | reflexivity ].
  simpl. now rewrite app_assoc.
Qed.

Section Handler.

Variable host : Host.

Lemma offline_online_run (index isRemove isRescan : Z) :
  offline_online host index isRemove isRescan =
  if isRemove =? 0 then online_part host isRescan
  else
    match shutdownDevice host index true with
    | None => None
    | Some (ret1, t1) =>
        if ret1 =? 0 then
          if Lib.empty (sysfs_put host index true "remove" "1") then
            if Lib.empty (sysfs_put host index false "remove" "1") then
              prefix (t1 ++ [EvPut index true "remove" "1";
                             EvPut index false "remove" "1"])%list
                     (online_part host isRescan)
            else Some (- EINVAL,
                       (t1 ++ [EvPut index true "remove" "1";
                               EvPut index false "remove" "1"])%list)
          else Some (- EINVAL, (t1 ++ [EvPut index true "remove" "1"])%list)
        else if ret1 =? - ENOENT then Some (0, t1)
        else Some (- EINVAL, t1)
    end.
Proof.
  assert (Hon : (if negb (isRescan =? 0)
                 then ret4 <- hotplugRescan host ;; ret ret4
                 else ret 0) = online_part host isRescan).
  { unfold online_part. destruct (isRescan =? 0); simpl; [reflexivity|].
    apply bind_ret_r. }
  unfold offline_online.
  destruct (isRemove =? 0); simpl negb; cbv iota.
  - rewrite ret_bind. exact Hon.
  - destruct (shutdownDevice host index true) as [[ret1 t1]|]; [ | reflexivity ].
    rewrite !bind_Some.
    destruct (ret1 =? 0); simpl negb; cbv iota.
    + rewrite !removeDevice_run.
      destruct (Lib.empty (sysfs_put host index true "remove" "1"));
        [ destruct (Lib.empty (sysfs_put host index false "remove" "1")) | ];
        rewrite ?bind_Some;
        change (- EINVAL =? 0) with false; change (0 =? 0) with true;
        simpl negb; cbv iota;
        rewrite ?bind_Some, ?bind_prefix, ?ret_bind, ?Hon, ?prefix_app;
        rewrite <- ?app_assoc; unfold ret; rewrite ?prefix_Some, ?app_nil_r;
        reflexivity.
    + destruct (ret1 =? - ENOENT); simpl;
        rewrite ?app_nil_r; reflexivity.
Qed.

Lemma hotplugHandler_run (argc : Z) (answers : list (Z * string)) :
  hotplugHandler host argc answers =
  if argc <? 2 then Some (- EINVAL, [])
  else
    match option_loop host answers UINT_MAX 0 0 with
    | OptReturn code => Some (code, [])
    | OptBreak index isRemove isRescan =>
        if canProceed host
        then prefix [EvPrompt] (offline_online host index isRemove isRescan)
        else Some (- ECANCELED, [EvPrompt])
    end.
Proof.
  unfold hotplugHandler.
  destruct (argc <? 2); [reflexivity|].
  destruct (option_loop host answers UINT_MAX 0 0); [reflexivity|].
  rewrite emit_bind. destruct (canProceed host); reflexivity.
Qed.

(** The option loop returns one of two codes when it returns. *)
Lemma option_loop_codes (answers : list (Z * string)) :
  forall index isRemove isRescan code,
    option_loop host answers index isRemove isRescan = OptReturn code ->
    code = - EINVAL \/ code = - ENOENT.
Proof.
  induction answers as [|[opt optarg] rest IH]; intros index isRemove isRescan code H.
  - discriminate.
  - simpl in H.
    destruct (opt =? -1); [discriminate|].
    destruct (opt =? OPT_OFFLINE).
    + destruct (bdf2index host optarg =? UINT_MAX).
      * injection H as <-. now right.
      * eapply IH; eassumption.
    + destruct (opt =? OPT_ONLINE).
      * eapply IH; eassumption.
      * injection H as <-. now left.
Qed.

End Handler.

(** * The claims *)

(** ** Shutdown controller *)

(** C7: when the shutdown attribute exists, the write of "1" succeeds and
    the status read of the first poll iteration returns exactly 1,
    [shutdownDevice] returns 0 and its whole log is: the existence test,
    one attribute write, one sleep, one status read. *)
Theorem shutdown_done_on_first_poll (host : Host) (index : Z) (is_userpf : bool) :
  sysfs_exists host index is_userpf "shutdown" = true ->
  sysfs_put host index is_userpf "shutdown" "1" = EmptyString ->
  sysfs_get host index is_userpf "shutdown" 0 = (EmptyString, 1) ->
  shutdownDevice host index is_userpf =
  Some (0, [EvExists index is_userpf "shutdown";
            EvPut index is_userpf "shutdown" "1";
            EvSleep 1;
            EvGet index is_userpf "shutdown"]).
Proof.
  intros Hex Hput Hget.
  rewrite shutdownDevice_run, Hex, Hput. simpl negb. cbv iota.
  change (Z.to_nat POLL_TIMEOUT) with (S 59).
  rewrite poll_S, Hget. reflexivity.
Qed.

Lemma shutdown_done_on_first_poll_witness :
  let host := plain_host true true (fun _ => 1) accelerator_tree in
  sysfs_exists host 0 true "shutdown" = true
  /\ sysfs_put host 0 true "shutdown" "1" = EmptyString
  /\ sysfs_get host 0 true "shutdown" 0 = (EmptyString, 1)
  /\ shutdownDevice host 0 true =
     Some (0, [EvExists 0 true "shutdown"; EvPut 0 true "shutdown" "1";
               EvSleep 1; EvGet 0 true "shutdown"]).
Proof.
  intro host.
  split; [reflexivity|]. split; [reflexivity|]. split; [reflexivity|].
  apply (shutdown_done_on_first_poll host 0 true); reflexivity.
Defined.

(** The run of an invocation whose shutdown never completes: 60 polls,
    the timed-out code from [shutdownDevice], and the handler stops
    there with the invalid-operation code. *)
Lemma timed_out_run (host : Host) (argc : Z) (answers : list (Z * string))
    (index isRescan : Z) :
  2 <= argc ->
  option_loop host answers UINT_MAX 0 0 = OptBreak index 1 isRescan ->
  canProceed host = true ->
  sysfs_exists host index true "shutdown" = true ->
  sysfs_put host index true "shutdown" "1" = EmptyString ->
  (forall w, 0 <= w < POLL_TIMEOUT ->
             fst (sysfs_get host index true "shutdown" w) = EmptyString
             /\ snd (sysfs_get host index true "shutdown" w) <> 1) ->
  let t := EvExists index true "shutdown" :: EvPut index true "shutdown" "1"
           :: poll_log index true 60 in
  shutdownDevice host index true = Some (- ETIMEDOUT, t)
  /\ hotplugHandler host argc answers = Some (- EINVAL, EvPrompt :: t).
Proof.
  intros Hargc Hopt Hgo Hex Hput Hpoll t.
  assert (Hsd : shutdownDevice host index true = Some (- ETIMEDOUT, t)).
  { rewrite shutdownDevice_run, Hex, Hput. simpl negb. cbv iota.
    rewrite (poll_times_out host index true (Z.to_nat POLL_TIMEOUT) 0);
      [ reflexivity | unfold POLL_TIMEOUT; lia | unfold POLL_TIMEOUT; lia | exact Hpoll ]. }
  split; [exact Hsd|].
  rewrite hotplugHandler_run.
  apply Z.ltb_ge in Hargc. rewrite Hargc, Hopt, Hgo.
  rewrite offline_online_run, Hsd. reflexivity.
Qed.

(** C3: when the shutdown attribute exists, the write succeeds and none
    of the 60 status reads returns 1, [shutdownDevice] returns
    [-ETIMEDOUT] after exactly 60 reads, and the log of the invocation
    holds no write of a "remove" attribute, for either function. *)
Theorem shutdown_timeout_blocks_removal (host : Host) (argc : Z)
    (answers : list (Z * string)) (index isRescan : Z) :
  2 <= argc ->
  option_loop host answers UINT_MAX 0 0 = OptBreak index 1 isRescan ->
  canProceed host = true ->
  sysfs_exists host index true "shutdown" = true ->
  sysfs_put host index true "shutdown" "1" = EmptyString ->
  (forall w, 0 <= w < POLL_TIMEOUT ->
             fst (sysfs_get host index true "shutdown" w) = EmptyString
             /\ snd (sysfs_get host index true "shutdown" w) <> 1) ->
  exists t_shutdown code t,
    shutdownDevice host index true = Some (- ETIMEDOUT, t_shutdown)
    /\ List.length (filter (fun e => match e with EvGet _ _ _ => true | _ => false end)
                      t_shutdown) = 60%nat
    /\ hotplugHandler host argc answers = Some (code, t)
    /\ filter any_remove t = [].
Proof.
  intros Hargc Hopt Hgo Hex Hput Hpoll.
  destruct (timed_out_run host argc answers index isRescan
              Hargc Hopt Hgo Hex Hput Hpoll) as [Hsd Hrun].
  eexists _, _, _. split; [exact Hsd|].
  split; [ | split; [exact Hrun|] ].
  - exact (poll_log_reads index true 60).
  - exact (poll_log_no_remove index true 60).
Qed.

Lemma shutdown_timeout_blocks_removal_witness :
  let host := plain_host true true (fun _ => 0) accelerator_tree in
  let answers := [(OPT_OFFLINE, "0000:01:00.0")] in
  exists t_shutdown code t,
    shutdownDevice host 0 true = Some (- ETIMEDOUT, t_shutdown)
    /\ List.length (filter (fun e => match e with EvGet _ _ _ => true | _ => false end)
                      t_shutdown) = 60%nat
    /\ hotplugHandler host 3 answers = Some (code, t)
    /\ filter any_remove t = [].
Proof.
  intros host answers.
  apply (shutdown_timeout_blocks_removal host 3 answers 0 0).
  - lia.
  - reflexivity.
  - reflexivity.
  - reflexivity.
  - reflexivity.
  - intros w _. split; [reflexivity | discriminate].
Defined.

(** C4, as stated, fails: an invocation whose shutdown exceeds the poll
    budget does not surface the timed-out code. *)
Lemma timed_out_code_not_surfaced :
  ~ (forall (host : Host) (argc : Z) (answers : list (Z * string)) (index isRescan : Z),
        2 <= argc ->
        option_loop host answers UINT_MAX 0 0 = OptBreak index 1 isRescan ->
        canProceed host = true ->
        sysfs_exists host index true "shutdown" = true ->
        sysfs_put host index true "shutdown" "1" = EmptyString ->
        (forall w, 0 <= w < POLL_TIMEOUT ->
                   fst (sysfs_get host index true "shutdown" w) = EmptyString
                   /\ snd (sysfs_get host index true "shutdown" w) <> 1) ->
        exists t, hotplugHandler host argc answers = Some (- ETIMEDOUT, t)).
Proof.
  intro H.
  destruct (H (plain_host true true (fun _ => 0) accelerator_tree) 3
              [(OPT_OFFLINE, "0000:01:00.0")] 0 0) as [t Ht].
  - lia.
  - reflexivity.
  - reflexivity.
  - reflexivity.
  - reflexivity.
  - intros w _. split; [reflexivity | discriminate].
  - vm_compute in Ht. discriminate Ht.
Qed.

(** ** Orchestration *)

Lemma empty_true (s : string) : Lib.empty s = true <-> s = EmptyString.
Proof. destruct s; simpl; split; congruence. Qed.

Lemma empty_false (s : string) : Lib.empty s = false <-> s <> EmptyString.
Proof. destruct s; simpl; split; congruence. Qed.

Lemma online_no_remove (t : list Event) :
  forallb online_event t = true -> filter any_remove t = [].
Proof.
  induction t as [|e t IH]; [reflexivity|].
  simpl. intros H. apply andb_true_iff in H as [He Ht].
  destruct e; try discriminate He; simpl; auto.
Qed.

Section Orchestration.

Variable host : Host.

Lemma shutdown_log (index : Z) (code : Z) (t : list Event) :
  shutdownDevice host index true = Some (code, t) ->
  forallb offline_event t = true /\ filter any_remove t = [].
Proof.
  intros H.
  destruct (shutdownDevice_returns host index true)
    as (c & t' & Hrun & Hoff & Hrem & _).
  rewrite H in Hrun. injection Hrun as <- <-. now split.
Qed.

Lemma offline_run_log (index : Z) (early : option Z) (t : list Event) :
  offline_run host index early t -> forallb offline_event t = true.
Proof.
  intros H; destruct H as [t1 H _|r t1 H _ _|t1 H _|t1 H _ _|t1 H _ _];
    destruct (shutdown_log _ _ _ H) as [Hoff _];
    rewrite ?forallb_app, ?Hoff; reflexivity.
Qed.

Lemma online_part_returns (isRescan : Z) :
  exists code t,
    online_part host isRescan = Some (code, t)
    /\ forallb online_event t = true
    /\ (isRescan = 0 -> code = 0 /\ t = [])
    /\ (isRescan <> 0 -> hotplugRescan host = Some (code, t)
                         /\ In (EvScan SYSFS_PATH) t).
Proof.
  unfold online_part.
  destruct (isRescan =? 0) eqn:E.
  - apply Z.eqb_eq in E. exists 0, []. repeat split; auto; contradiction.
  - apply Z.eqb_neq in E.
    destruct (hotplugRescan_returns host) as (code & t & Hrun & Hon & _).
    eexists _, _. split; [exact Hrun|]. split; [exact Hon|].
    split; [contradiction|]. intros _. split; [exact Hrun|]. now left.
Qed.

(** The offline block runs in one of the five ways of [offline_run],
    and the online block runs after it exactly when it falls through. *)
Lemma offline_online_shape (index isRemove isRescan : Z) :
  isRemove <> 0 ->
  exists early t_off,
    offline_run host index early t_off
    /\ offline_online host index isRemove isRescan =
       match early with
       | Some code => Some (code, t_off)
       | None => prefix t_off (online_part host isRescan)
       end.
Proof.
  intros Hrm. apply Z.eqb_neq in Hrm.
  rewrite offline_online_run, Hrm.
  destruct (shutdownDevice_returns host index true)
    as (ret1 & t1 & Hsd & _ & _ & _ & Habsent & _).
  rewrite Hsd.
  destruct (ret1 =? 0) eqn:E0.
  - apply Z.eqb_eq in E0. subst ret1.
    destruct (Lib.empty (sysfs_put host index true "remove" "1")) eqn:Eu.
    + destruct (Lib.empty (sysfs_put host index false "remove" "1")) eqn:Em.
      * eexists None, _. split; [ apply run_removed; eassumption | reflexivity ].
      * eexists (Some _), _. split; [ apply run_mgmt_failed; eassumption | reflexivity ].
    + eexists (Some _), _. split; [ apply run_user_failed; eassumption | reflexivity ].
  - apply Z.eqb_neq in E0.
    destruct (ret1 =? - ENOENT) eqn:E1.
    + apply Z.eqb_eq in E1. subst ret1.
      eexists (Some _), _. split; [ | reflexivity ].
      apply run_absent; [exact Hsd | now apply Habsent].
    + apply Z.eqb_neq in E1.
      eexists (Some _), _. split; [ | reflexivity ].
      eapply run_shutdown_failed; eassumption.
Qed.

Lemma offline_online_skip (index isRescan : Z) :
  offline_online host index 0 isRescan = online_part host isRescan.
Proof. rewrite offline_online_run. reflexivity. Qed.

(** The option loop leaves [isRemove] and [isRescan] as flags. *)
Lemma option_loop_flags (answers : list (Z * string)) :
  forall index0 r0 s0 index isRemove isRescan,
    (r0 = 0 \/ r0 = 1) -> (s0 = 0 \/ s0 = 1) ->
    option_loop host answers index0 r0 s0 = OptBreak index isRemove isRescan ->
    (isRemove = 0 \/ isRemove = 1) /\ (isRescan = 0 \/ isRescan = 1).
Proof.
  induction answers as [|[opt optarg] rest IH];
    intros index0 r0 s0 index isRemove isRescan Hr Hs H.
  - injection H as <- <- <-. now split.
  - simpl in H.
    destruct (opt =? -1); [injection H as <- <- <-; now split|].
    destruct (opt =? OPT_OFFLINE).
    + destruct (bdf2index host optarg =? UINT_MAX); [discriminate|].
      eapply IH; [ | | eassumption]; auto.
    + destruct (opt =? OPT_ONLINE); [ | discriminate ].
      eapply IH; [ | | eassumption]; auto.
Qed.

(** [hotplugHandler] returns on every host and every invocation. *)
Lemma hotplugHandler_returns (argc : Z) (answers : list (Z * string)) :
  exists code t, hotplugHandler host argc answers = Some (code, t).
Proof.
  rewrite hotplugHandler_run.
  destruct (argc <? 2); [eexists _, _; reflexivity|].
  destruct (option_loop host answers UINT_MAX 0 0) as [c|index isRemove isRescan];
    [eexists _, _; reflexivity|].
  destruct (canProceed host); [ | eexists _, _; reflexivity ].
  destruct (online_part_returns isRescan) as (c2 & t2 & Hon & _).
  destruct (Z.eq_dec isRemove 0) as [->|Hrm].
  - rewrite offline_online_skip, Hon. eexists _, _; reflexivity.
  - destruct (offline_online_shape index isRemove isRescan Hrm)
      as (early & t_off & _ & ->).
    destruct early; [eexists _, _; reflexivity|].
    rewrite Hon. eexists _, _; reflexivity.
Qed.

(** The codes [hotplugHandler] surfaces: success, invalid
    argument/operation, not found, canceled, or the negated [errno] of
    a failed open or write of the rescan attribute. *)
Lemma hotplugHandler_codes (argc : Z) (answers : list (Z * string)) :
  exists code t,
    hotplugHandler host argc answers = Some (code, t)
    /\ (code = 0 \/ code = - EINVAL \/ code = - ENOENT \/ code = - ECANCELED
        \/ exists errno, code = - errno
             /\ (ofs_open host (rescan_path host) = IoFail errno
                 \/ ofs_open host (rescan_path host) = IoThrow errno
                 \/ ofs_write host (rescan_path host) = IoFail errno
                 \/ ofs_write host (rescan_path host) = IoThrow errno)).
Proof.
  assert (Hon : forall isRescan, exists code t,
             online_part host isRescan = Some (code, t)
             /\ (code = 0
                 \/ exists errno, code = - errno
                      /\ (ofs_open host (rescan_path host) = IoFail errno
                          \/ ofs_open host (rescan_path host) = IoThrow errno
                          \/ ofs_write host (rescan_path host) = IoFail errno
                          \/ ofs_write host (rescan_path host) = IoThrow errno))).
  { intros isRescan. unfold online_part. destruct (isRescan =? 0).
    - exists 0, []. split; [reflexivity | now left].
    - destruct (hotplugRescan_returns host) as (code & t & Hrun & _ & Hc).
      eexists _, _. split; [exact Hrun | exact Hc]. }
  rewrite hotplugHandler_run.
  destruct (argc <? 2); [ran; auto|].
  destruct (option_loop host answers UINT_MAX 0 0)
    as [c|index isRemove isRescan] eqn:Hopt.
  { ran.
    destruct (option_loop_codes host _ _ _ _ _ Hopt) as [->| ->]; auto. }
  destruct (canProceed host); [ | ran; auto 6 ].
  destruct (Hon isRescan) as (c2 & t2 & Hrun & Hc2).
  assert (Hc2' : c2 = 0 \/ c2 = - EINVAL \/ c2 = - ENOENT \/ c2 = - ECANCELED
        \/ exists errno, c2 = - errno
             /\ (ofs_open host (rescan_path host) = IoFail errno
                 \/ ofs_open host (rescan_path host) = IoThrow errno
                 \/ ofs_write host (rescan_path host) = IoFail errno
                 \/ ofs_write host (rescan_path host) = IoThrow errno)).
  { destruct Hc2 as [->|H]; [now left | now (do 4 right)]. }
  destruct (Z.eq_dec isRemove 0) as [->|Hrm].
  - rewrite offline_online_skip, Hrun. ran; exact Hc2'.
  - destruct (offline_online_shape index isRemove isRescan Hrm)
      as (early & t_off & Hshape & ->).
    destruct Hshape; try (ran; auto).
    rewrite Hrun. ran; exact Hc2'.
Qed.

End Orchestration.

(** C4, amended: the handler surfaces success, invalid
    argument/operation, not found, canceled, or the negated [errno] of a
    failed open or write of the rescan attribute; and for an invocation
    whose offline shutdown exceeds the poll budget, [shutdownDevice]
    returns the timed-out code and the handler surfaces the
    invalid-operation code [-EINVAL], which is a different code. *)
Theorem timed_out_surfaces_as_invalid (host : Host) (argc : Z)
    (answers : list (Z * string)) (index isRescan : Z) :
  2 <= argc ->
  option_loop host answers UINT_MAX 0 0 = OptBreak index 1 isRescan ->
  canProceed host = true ->
  sysfs_exists host index true "shutdown" = true ->
  sysfs_put host index true "shutdown" "1" = EmptyString ->
  (forall w, 0 <= w < POLL_TIMEOUT ->
             fst (sysfs_get host index true "shutdown" w) = EmptyString
             /\ snd (sysfs_get host index true "shutdown" w) <> 1) ->
  (exists t, shutdownDevice host index true = Some (- ETIMEDOUT, t))
  /\ (exists t, hotplugHandler host argc answers = Some (- EINVAL, t))
  /\ - EINVAL <> - ETIMEDOUT
  /\ (forall argc' answers',
        exists code t,
          hotplugHandler host argc' answers' = Some (code, t)
          /\ (code = 0 \/ code = - EINVAL \/ code = - ENOENT \/ code = - ECANCELED
              \/ exists errno, code = - errno
                   /\ (ofs_open host (rescan_path host) = IoFail errno
                       \/ ofs_open host (rescan_path host) = IoThrow errno
                       \/ ofs_write host (rescan_path host) = IoFail errno
                       \/ ofs_write host (rescan_path host) = IoThrow errno))).
Proof.
  intros Hargc Hopt Hgo Hex Hput Hpoll.
  destruct (timed_out_run host argc answers index isRescan
              Hargc Hopt Hgo Hex Hput Hpoll) as [Hsd Hrun].
  split; [eexists; exact Hsd|].
  split; [eexists; exact Hrun|].
  split; [discriminate|].
  intros argc' answers'. apply hotplugHandler_codes.
Qed.

Lemma timed_out_surfaces_as_invalid_witness :
  let host := plain_host true true (fun w => if w <? 100 then 0 else 1) accelerator_tree in
  let answers := [(OPT_OFFLINE, "0000:01:00.0"); (OPT_ONLINE, EmptyString)] in
  (exists t, shutdownDevice host 0 true = Some (- ETIMEDOUT, t))
  /\ (exists t, hotplugHandler host 4 answers = Some (- EINVAL, t))
  /\ - EINVAL <> - ETIMEDOUT
  /\ (forall argc' answers',
        exists code t,
          hotplugHandler host argc' answers' = Some (code, t)
          /\ (code = 0 \/ code = - EINVAL \/ code = - ENOENT \/ code = - ECANCELED
              \/ exists errno, code = - errno
                   /\ (ofs_open host (rescan_path host) = IoFail errno
                       \/ ofs_open host (rescan_path host) = IoThrow errno
                       \/ ofs_write host (rescan_path host) = IoFail errno
                       \/ ofs_write host (rescan_path host) = IoThrow errno))).
Proof.
  intros host answers.
  apply (timed_out_surfaces_as_invalid host 4 answers 0 1).
  - lia.
  - reflexivity.
  - reflexivity.
  - reflexivity.
  - reflexivity.
  - intros w Hw. unfold host, plain_host. simpl.
    destruct (w <? 100) eqn:E.
    + split; [reflexivity | discriminate].
    + apply Z.ltb_ge in E. unfold POLL_TIMEOUT in Hw. lia.
Defined.

(** C5: when the "shutdown" attribute of the user function does not
    exist, [shutdownDevice] returns [-ENOENT] after the existence test
    alone, and the handler returns 0 with no write of a "remove"
    attribute in its log. *)
Theorem absent_device_is_success (host : Host) (argc : Z)
    (answers : list (Z * string)) (index isRescan : Z) :
  2 <= argc ->
  option_loop host answers UINT_MAX 0 0 = OptBreak index 1 isRescan ->
  canProceed host = true ->
  sysfs_exists host index true "shutdown" = false ->
  shutdownDevice host index true = Some (- ENOENT, [EvExists index true "shutdown"])
  /\ exists t,
       hotplugHandler host argc answers = Some (0, t)
       /\ filter any_remove t = []
       /\ t = [EvPrompt; EvExists index true "shutdown"].
Proof.
  intros Hargc Hopt Hgo Hex.
  assert (Hsd : shutdownDevice host index true =
                Some (- ENOENT, [EvExists index true "shutdown"])).
  { rewrite shutdownDevice_run, Hex. reflexivity. }
  split; [exact Hsd|].
  eexists. split; [ | split; [ | reflexivity ] ]; [ | reflexivity ].
  rewrite hotplugHandler_run.
  apply Z.ltb_ge in Hargc. rewrite Hargc, Hopt, Hgo.
  rewrite offline_online_run, Hsd. reflexivity.
Qed.

Lemma absent_device_is_success_witness :
  let host := plain_host true false (fun _ => 0) accelerator_tree in
  let answers := [(OPT_OFFLINE, "0000:01:00.0")] in
  shutdownDevice host 0 true = Some (- ENOENT, [EvExists 0 true "shutdown"])
  /\ exists t,
       hotplugHandler host 3 answers = Some (0, t)
       /\ filter any_remove t = []
       /\ t = [EvPrompt; EvExists 0 true "shutdown"].
Proof.
  intros host answers.
  apply (absent_device_is_success host 3 answers 0 0).
  - lia.
  - reflexivity.
  - reflexivity.
  - reflexivity.
Defined.

(** C6: in an invocation that reaches the removal stage (the offline
    switch was given, the operator confirmed and [shutdownDevice]
    returned 0), the handler writes "remove" for the user function
    right after the log of the shutdown.  When that write fails, it is
    the last event: the management function is not touched and the
    handler returns what [removeDevice] returned, [-EINVAL].  When it
    succeeds, the write of "remove" for the management function of the
    same device follows it at once, and only events of the online block
    come after. *)
Theorem remove_user_before_management (host : Host) (argc : Z)
    (answers : list (Z * string)) (index isRescan : Z) (t1 : list Event) :
  2 <= argc ->
  option_loop host answers UINT_MAX 0 0 = OptBreak index 1 isRescan ->
  canProceed host = true ->
  shutdownDevice host index true = Some (0, t1) ->
  exists code t,
    hotplugHandler host argc answers = Some (code, t)
    /\ ((sysfs_put host index true "remove" "1" <> EmptyString
         /\ removeDevice host index true =
            Some (code, [EvPut index true "remove" "1"])
         /\ code = - EINVAL
         /\ t = (EvPrompt :: t1 ++ [EvPut index true "remove" "1"])%list
         /\ filter any_remove t = [EvPut index true "remove" "1"])
        \/ (sysfs_put host index true "remove" "1" = EmptyString
            /\ removeDevice host index true =
               Some (0, [EvPut index true "remove" "1"])
            /\ exists t_on,
                 t = (EvPrompt :: t1 ++ [EvPut index true "remove" "1";
                                         EvPut index false "remove" "1"] ++ t_on)%list
                 /\ forallb online_event t_on = true
                 /\ filter any_remove t = [EvPut index true "remove" "1";
                                           EvPut index false "remove" "1"])).
Proof.
  intros Hargc Hopt Hgo Hsd.
  destruct (shutdown_log host _ _ _ Hsd) as [_ Hclean].
  rewrite hotplugHandler_run.
  apply Z.ltb_ge in Hargc. rewrite Hargc, Hopt, Hgo.
  rewrite offline_online_run, Hsd. simpl.
  rewrite !removeDevice_run.
  destruct (Lib.empty (sysfs_put host index true "remove" "1")) eqn:Hu.
  - destruct (online_part_returns host isRescan) as (c2 & t2 & Hon & Hev & _).
    pose proof (online_no_remove t2 Hev) as Hnr.
    assert (Hboth : forall t_on,
               filter any_remove t_on = [] ->
               filter any_remove
                 (EvPrompt :: t1 ++ [EvPut index true "remove" "1";
                                     EvPut index false "remove" "1"] ++ t_on)%list =
               [EvPut index true "remove" "1"; EvPut index false "remove" "1"]).
    { intros t_on Ht. simpl. rewrite filter_app, Hclean. simpl. now rewrite Ht. }
    destruct (Lib.empty (sysfs_put host index false "remove" "1")).
    + rewrite Hon. simpl. rewrite <- app_assoc.
      eexists _, _. split; [reflexivity|].
      right. split; [now apply empty_true|]. split; [reflexivity|].
      exists t2. split; [reflexivity | split; [exact Hev | now apply Hboth] ].
    + rewrite <- (app_nil_r (t1 ++ _)), <- app_assoc.
      eexists _, _. split; [reflexivity|].
      right. split; [now apply empty_true|]. split; [reflexivity|].
      exists []. split; [reflexivity | split; [reflexivity | now apply Hboth] ].
  - eexists _, _. split; [reflexivity|].
    left. split; [now apply empty_false|]. split; [reflexivity|].
    split; [reflexivity|]. split; [reflexivity|].
    simpl. rewrite filter_app, Hclean. reflexivity.
Qed.

Lemma remove_user_before_management_witness :
  let host := plain_host true true (fun _ => 1) accelerator_tree in
  let answers := [(OPT_OFFLINE, "0000:01:00.0")] in
  let t1 := [EvExists 0 true "shutdown"; EvPut 0 true "shutdown" "1";
             EvSleep 1; EvGet 0 true "shutdown"] in
  exists code t,
    hotplugHandler host 3 answers = Some (code, t)
    /\ ((sysfs_put host 0 true "remove" "1" <> EmptyString
         /\ removeDevice host 0 true = Some (code, [EvPut 0 true "remove" "1"])
         /\ code = - EINVAL
         /\ t = (EvPrompt :: t1 ++ [EvPut 0 true "remove" "1"])%list
         /\ filter any_remove t = [EvPut 0 true "remove" "1"])
        \/ (sysfs_put host 0 true "remove" "1" = EmptyString
            /\ removeDevice host 0 true = Some (0, [EvPut 0 true "remove" "1"])
            /\ exists t_on,
                 t = (EvPrompt :: t1 ++ [EvPut 0 true "remove" "1";
                                         EvPut 0 false "remove" "1"] ++ t_on)%list
                 /\ forallb online_event t_on = true
                 /\ filter any_remove t = [EvPut 0 true "remove" "1";
                                           EvPut 0 false "remove" "1"])).
Proof.
  intros host answers t1.
  apply (remove_user_before_management host 3 answers 0 0 t1).
  - lia.
  - reflexivity.
  - reflexivity.
  - reflexivity.
Defined.

(** A run in which the write of "remove" for the user function fails,
    with both switches given: the handler stops at that write. *)
Example user_remove_failure_run :
  hotplugHandler
    (scripted_host (fun _ => 0) true true
       (fun _ entry => if String.eqb entry "remove" then "busy" else EmptyString)
       (fun _ => (EmptyString, 1)) accelerator_tree IoOk IoOk)
    4 [(OPT_OFFLINE, "0000:01:00.0"); (OPT_ONLINE, EmptyString)] =
  Some (- EINVAL, [EvPrompt; EvExists 0 true "shutdown";
                   EvPut 0 true "shutdown" "1"; EvSleep 1;
                   EvGet 0 true "shutdown"; EvPut 0 true "remove" "1"]).
Proof. reflexivity. Qed.

(** C9, as stated, fails: with both switches given and the device entry
    absent, the offline block ends in success and the online block is
    not run. *)
Lemma online_skipped_after_absent_device :
  ~ (forall (host : Host) (argc : Z) (answers : list (Z * string)) (index : Z),
        2 <= argc ->
        option_loop host answers UINT_MAX 0 0 = OptBreak index 1 1 ->
        canProceed host = true ->
        sysfs_exists host index true "shutdown" = false ->
        exists code t,
          hotplugHandler host argc answers = Some (code, t)
          /\ In (EvScan SYSFS_PATH) t).
Proof.
  intro H.
  destruct (H (plain_host true false (fun _ => 0) accelerator_tree) 4
              [(OPT_OFFLINE, "0000:01:00.0"); (OPT_ONLINE, EmptyString)] 0)
    as (code & t & Hrun & Hin).
  - lia.
  - reflexivity.
  - reflexivity.
  - reflexivity.
  - vm_compute in Hrun. injection Hrun as <- <-.
    destruct Hin as [Hin|[Hin|[]]]; discriminate Hin.
Qed.

(** C9, amended: with both switches given, the log of the handler is the
    prompt, then events of the offline block only, then events of the
    online block only.  The online block runs, and its result is what
    the handler returns, exactly when [shutdownDevice] and both calls of
    [removeDevice] returned 0; when the "shutdown" attribute is absent
    the handler returns 0 and the online block does not run. *)
Theorem offline_block_before_online_block (host : Host) (argc : Z)
    (answers : list (Z * string)) (index : Z) :
  2 <= argc ->
  option_loop host answers UINT_MAX 0 0 = OptBreak index 1 1 ->
  canProceed host = true ->
  exists code t_off t_on,
    hotplugHandler host argc answers = Some (code, EvPrompt :: t_off ++ t_on)%list
    /\ forallb offline_event t_off = true
    /\ forallb online_event t_on = true
    /\ (((exists t1, shutdownDevice host index true = Some (0, t1))
         /\ removeDevice host index true = Some (0, [EvPut index true "remove" "1"])
         /\ removeDevice host index false = Some (0, [EvPut index false "remove" "1"])
         /\ hotplugRescan host = Some (code, t_on)
         /\ In (EvScan SYSFS_PATH) t_on)
        \/ (t_on = []
            /\ ~ ((exists t1, shutdownDevice host index true = Some (0, t1))
                  /\ removeDevice host index true = Some (0, [EvPut index true "remove" "1"])
                  /\ removeDevice host index false = Some (0, [EvPut index false "remove" "1"]))))
    /\ (sysfs_exists host index true "shutdown" = false -> code = 0 /\ t_on = []).
Proof.
  intros Hargc Hopt Hgo.
  rewrite hotplugHandler_run.
  apply Z.ltb_ge in Hargc. rewrite Hargc, Hopt, Hgo.
  destruct (online_part_returns host 1) as (c2 & t2 & Hon & Hev & _ & Hres).
  destruct Hres as [Hres Hscan]; [discriminate|].
  destruct (offline_online_shape host index 1 1) as (early & t_off & Hshape & ->);
    [discriminate|].
  pose proof (offline_run_log host _ _ _ Hshape) as Hoff.
  destruct Hshape as [t1 Hsd Hex|r t1 Hsd Hr0 Hr1|t1 Hsd Hu|t1 Hsd Hu Hm|t1 Hsd Hu Hm].
  - exists 0, t1, []. rewrite app_nil_r.
    split; [reflexivity|]. split; [exact Hoff|]. split; [reflexivity|].
    split; [ | intros _; now split ].
    right. split; [reflexivity|]. intros [[t' Ht'] _].
    rewrite Hsd in Ht'. discriminate Ht'.
  - exists (- EINVAL), t1, []. rewrite app_nil_r.
    split; [reflexivity|]. split; [exact Hoff|]. split; [reflexivity|].
    split.
    + right. split; [reflexivity|]. intros [[t' Ht'] _].
      rewrite Hsd in Ht'. injection Ht' as Hr _. contradiction.
    + intros Hex. exfalso.
      destruct (shutdownDevice_returns host index true)
        as (c & t' & Hrun & _ & _ & _ & Habsent & _).
      rewrite Hsd in Hrun. injection Hrun as <- <-.
      apply Hr1. now apply Habsent.
  - eexists (- EINVAL), _, []. rewrite app_nil_r.
    split; [reflexivity|]. split; [exact Hoff|]. split; [reflexivity|].
    split.
    + right. split; [reflexivity|]. intros (_ & Hrm & _).
      rewrite removeDevice_run, Hu in Hrm. discriminate Hrm.
    + intros Hex. rewrite shutdownDevice_run, Hex in Hsd. discriminate Hsd.
  - eexists (- EINVAL), _, []. rewrite app_nil_r.
    split; [reflexivity|]. split; [exact Hoff|]. split; [reflexivity|].
    split.
    + right. split; [reflexivity|]. intros (_ & _ & Hrm).
      rewrite removeDevice_run, Hm in Hrm. discriminate Hrm.
    + intros Hex. rewrite shutdownDevice_run, Hex in Hsd. discriminate Hsd.
  - rewrite Hon. eexists c2, _, t2.
    split; [reflexivity|]. split; [exact Hoff|]. split; [exact Hev|].
    split.
    + left. split; [eexists; exact Hsd|].
      rewrite !removeDevice_run, Hu, Hm. auto.
    + intros Hex. rewrite shutdownDevice_run, Hex in Hsd. discriminate Hsd.
Qed.

Lemma offline_block_before_online_block_witness :
  let host := plain_host true true (fun w => if w <? 2 then 0 else 1) accelerator_tree in
  let answers := [(OPT_OFFLINE, "0000:01:00.0"); (OPT_ONLINE, EmptyString)] in
  exists code t_off t_on,
    hotplugHandler host 4 answers = Some (code, EvPrompt :: t_off ++ t_on)%list
    /\ forallb offline_event t_off = true
    /\ forallb online_event t_on = true
    /\ (((exists t1, shutdownDevice host 0 true = Some (0, t1))
         /\ removeDevice host 0 true = Some (0, [EvPut 0 true "remove" "1"])
         /\ removeDevice host 0 false = Some (0, [EvPut 0 false "remove" "1"])
         /\ hotplugRescan host = Some (code, t_on)
         /\ In (EvScan SYSFS_PATH) t_on)
        \/ (t_on = []
            /\ ~ ((exists t1, shutdownDevice host 0 true = Some (0, t1))
                  /\ removeDevice host 0 true = Some (0, [EvPut 0 true "remove" "1"])
                  /\ removeDevice host 0 false = Some (0, [EvPut 0 false "remove" "1"]))))
    /\ (sysfs_exists host 0 true "shutdown" = false -> code = 0 /\ t_on = []).
Proof.
  intros host answers.
  apply (offline_block_before_online_block host 4 answers 0).
  - lia.
  - reflexivity.
  - reflexivity.
Defined.

(** C10: an invocation with two arguments in which [getopt_long] reports
    no option at all (a lone non-option word) is not rejected: the
    handler prompts and returns 0 when the operator confirms,
    [-ECANCELED] otherwise. *)
Theorem no_switch_is_not_rejected (host : Host) :
  hotplugHandler host 2 [] =
  Some (if canProceed host then 0 else - ECANCELED, [EvPrompt])
  /\ 0 <> - EINVAL /\ - ECANCELED <> - EINVAL.
Proof.
  split; [ | split; discriminate ].
  rewrite hotplugHandler_run. simpl.
  destruct (canProceed host); reflexivity.
Qed.

(** X20: without a recognized switch the handler touches neither the device
    nor the rescan attribute: its log is empty or the prompt alone. *)
Lemma no_switch_no_operation (host : Host) (argc : Z) (answers : list (Z * string)) :
  no_switch answers = true ->
  exists code t,
    hotplugHandler host argc answers = Some (code, t)
    /\ (t = [] \/ t = [EvPrompt])
    /\ (code = - EINVAL \/ code = - ECANCELED \/ code = 0).
Proof.
  intros Hns.
  assert (Hloop : forall index,
             option_loop host answers index 0 0 = OptBreak index 0 0
             \/ option_loop host answers index 0 0 = OptReturn (- EINVAL)).
  { induction answers as [|[opt optarg] rest IH]; intros index; [now left|].
    simpl in Hns. apply andb_true_iff in Hns as [Hopt Hrest].
    apply andb_true_iff in Hopt as [Hoff Hon].
    apply negb_true_iff in Hoff, Hon.
    simpl. destruct (opt =? -1); [now left|].
    rewrite Hoff, Hon. now right. }
  rewrite hotplugHandler_run.
  destruct (argc <? 2); [ran; auto|].
  destruct (Hloop UINT_MAX) as [-> | ->].
  - destruct (canProceed host).
    + rewrite offline_online_skip. ran; auto.
    + ran; auto.
  - ran; auto.
Qed.

(** ** Rescan controller *)

(** C1: on a tree without the accelerator the locator returns the empty
    path, and [hotplugRescan] nevertheless opens the relative path
    "rescan" for writing, writes "1" and returns 0; with a stream that
    cannot be opened it returns the negated [errno] of the open. *)
Theorem rescan_with_empty_root_opens_rescan :
  findXilinxRootPort foreign_tree = EmptyString
  /\ hotplugRescan (plain_host true true (fun _ => 0) foreign_tree) =
     Some (0, [EvScan SYSFS_PATH; EvOpen "rescan";
               EvWrite "rescan" "1"; EvClose "rescan"])
  /\ hotplugRescan (unwritable_host foreign_tree) =
     Some (- EACCES, [EvScan SYSFS_PATH; EvOpen "rescan"])
  /\ - EACCES <> - ENOENT.
Proof.
  split; [reflexivity|]. split; [reflexivity|]. split; [reflexivity|discriminate].
Qed.

(** ** Root-port locator *)

(** C2: on [stale_device_tree] the locator returns the second top-level
    entry, whose only child reads as the known vendor and has no device
    attribute; no entry of the tree has a child with both identifiers. *)
Theorem locator_returns_bridge_matching_vendor_only :
  findXilinxRootPort stale_device_tree = "/sys/bus/pci/devices/0000:00:02.0"
  /\ forallb (fun b => negb (has_qualifying_child b)) stale_device_tree = true
  /\ map (fun b => map (fun c => (attr_is (d_vendor c) XILINX_VENDOR,
                                  attr_is (d_device c) XILINX_US))
                       (b_entries b)) stale_device_tree
     = [[(false, true)]; [(true, false)]].
Proof. split; [reflexivity | split; reflexivity]. Qed.

(** C8: on [stale_vendor_tree] no top-level entry has a child with both
    identifiers, and the locator does not return the empty path: the
    second child, whose vendor attribute cannot be read, is taken for a
    match. *)
Theorem locator_not_empty_without_qualifying_child :
  existsb has_qualifying_child stale_vendor_tree = false
  /\ findXilinxRootPort stale_vendor_tree = "/sys/bus/pci/devices/0000:00:03.0"
  /\ find_root_port_spec stale_vendor_tree = EmptyString.
Proof. split; [reflexivity | split; reflexivity]. Qed.

(** ** The locator on settled trees *)

(** What reading one attribute does to the string it is read into. *)
Lemma read_attr_cases (f : attr_file) (id : string) :
  (read_attr f id = None /\ attr_word f = None)
  \/ (read_attr f id = Some id /\ attr_word f = None)
  \/ (exists w, read_attr f id = Some w /\ attr_word f = Some w).
Proof.
  destruct f as [| |text|]; simpl; auto.
  unfold Lib.extract. destruct (Lib.skip_ws text); eauto.
Qed.

Lemma scan_entries_result (root : Lib.path) (entries : list dirent) :
  forall v d,
    fst (scan_entries root entries v d) = Some root
    \/ fst (scan_entries root entries v d) = None.
Proof.
  induction entries as [|c rest IH]; intros v d; simpl; [now right|].
  destruct (d_is_directory c); simpl; [ | apply IH ].
  destruct (read_attr (d_vendor c) v) as [v'|]; [ | apply IH ].
  destruct (read_attr (d_device c) d) as [d'|]; [ | apply IH ].
  destruct (String.eqb v' XILINX_VENDOR && String.eqb d' XILINX_US)%bool;
    [now left | apply IH].
Qed.

(** One step of the inner loop on a settled entry, entered with strings
    that are not the known pair: a qualifying entry ends the search, any
    other entry is passed with strings that are still not the pair. *)
Lemma scan_entries_step (root : Lib.path) (c : dirent) (rest : list dirent)
    (v d : string) :
  settled c = true ->
  no_match v d ->
  (qualifies c = true /\ fst (scan_entries root (c :: rest) v d) = Some root)
  \/ (qualifies c = false
      /\ exists v' d', no_match v' d'
           /\ scan_entries root (c :: rest) v d = scan_entries root rest v' d').
Proof.
  unfold settled, qualifies, attr_is, has_word, no_match. intros Hs Hvd. simpl.
  destruct (d_is_directory c); simpl in *; [ | right; eauto ].
  apply andb_true_iff in Hs as [H1 H2].
  destruct (read_attr_cases (d_vendor c) v) as [[-> Wv]|[[-> Wv]|(wv & -> & Wv)]];
    rewrite Wv in *; simpl in *.
  - right; eauto.
  - destruct (read_attr_cases (d_device c) d) as [[-> Wd]|[[-> Wd]|(wd & -> & Wd)]];
      rewrite Wd in *; simpl in *.
    + right; eauto.
    + rewrite Hvd. right; eauto.
    + rewrite orb_false_r in H2. apply negb_true_iff in H2.
      rewrite H2, andb_false_r. right. split; [reflexivity|].
      exists v, wd. split; [now rewrite H2, andb_false_r | reflexivity].
  - destruct (read_attr_cases (d_device c) d) as [[-> Wd]|[[-> Wd]|(wd & -> & Wd)]];
      rewrite Wd in *; simpl in *.
    + rewrite orb_false_r in H1. apply negb_true_iff in H1.
      right. split; [now rewrite H1|].
      exists wv, d. split; [now rewrite H1 | reflexivity].
    + rewrite orb_false_r in H1. apply negb_true_iff in H1.
      rewrite H1. simpl. right. split; [reflexivity|].
      exists wv, d. split; [now rewrite H1 | reflexivity].
    + destruct (String.eqb wv XILINX_VENDOR && String.eqb wd XILINX_US)%bool eqn:E.
      * left. split; reflexivity.
      * right. split; [reflexivity|]. exists wv, wd. split; [exact E | reflexivity].
Qed.

Lemma scan_entries_settled (root : Lib.path) (entries : list dirent) :
  forallb settled entries = true ->
  forall v d,
    no_match v d ->
    if existsb qualifies entries
    then fst (scan_entries root entries v d) = Some root
    else exists v' d', scan_entries root entries v d = (None, (v', d'))
                       /\ no_match v' d'.
Proof.
  induction entries as [|c rest IH]; intros Hs v d Hvd.
  - simpl. eauto.
  - simpl in Hs. apply andb_true_iff in Hs as [Hc Hrest].
    change (existsb qualifies (c :: rest))
      with (qualifies c || existsb qualifies rest)%bool.
    destruct (scan_entries_step root c rest v d Hc Hvd)
      as [[Hq Hrun]|[Hq (v' & d' & Hvd' & Hrun)]]; rewrite Hq; simpl orb.
    + exact Hrun.
    + rewrite Hrun. apply IH; assumption.
Qed.

Lemma scan_bridges_settled (tree : list bridge) :
  settled_tree tree = true ->
  forall v d,
    no_match v d ->
    scan_bridges tree v d = find_root_port_spec tree.
Proof.
  induction tree as [|b rest IH]; intros Hs v d Hvd; [reflexivity|].
  unfold settled_tree in Hs. simpl in Hs. apply andb_true_iff in Hs as [Hb Hrest].
  pose proof (scan_entries_settled (b_path b) (b_entries b) Hb v d Hvd) as H.
  simpl. unfold has_qualifying_child.
  destruct (existsb qualifies (b_entries b)).
  - destruct (scan_entries (b_path b) (b_entries b) v d) as [[p|] [v' d']];
      simpl in H; [injection H as ->; reflexivity | discriminate].
  - destruct H as (v' & d' & -> & Hvd'). apply IH; assumption.
Qed.

(** X1: on a settled tree the locator is the search of the specification:
    it returns the first top-level entry with a child whose own vendor
    and device attributes are the known pair, and the empty path when
    there is none. *)
Theorem findXilinxRootPort_settled (tree : list bridge) :
  settled_tree tree = true ->
  findXilinxRootPort tree = find_root_port_spec tree.
Proof.
  intros Hs. apply scan_bridges_settled; [exact Hs | reflexivity].
Qed.

Lemma findXilinxRootPort_settled_witness :
  settled_tree accelerator_tree = true
  /\ findXilinxRootPort accelerator_tree = find_root_port_spec accelerator_tree.
Proof.
  split; [reflexivity|].
  apply (findXilinxRootPort_settled accelerator_tree). reflexivity.
Defined.

(** * Further properties *)

(** ** The poll loop, iteration by iteration *)

Lemma prefix_nil {A : Type} (m : M A) : prefix [] m = m.
Proof. destruct m as [[a t]|]; reflexivity. Qed.

Lemma poll_log_app (index : Z) (is_userpf : bool) (n m : nat) :
  poll_log index is_userpf (n + m) =
  (poll_log index is_userpf n ++ poll_log index is_userpf m)%list.
Proof.
  induction n as [|n IH]; [reflexivity|].
  change (S n + m)%nat with (S (n + m)). rewrite !poll_log_S, IH. reflexivity.
Qed.

Lemma poll_log_gets (index : Z) (is_userpf : bool) (n : nat) :
  List.length (filter is_get (poll_log index is_userpf n)) = n.
Proof. exact (poll_log_reads index is_userpf n). Qed.

Lemma poll_log_sleeps (index : Z) (is_userpf : bool) (n : nat) :
  List.length (filter is_sleep (poll_log index is_userpf n)) = n.
Proof.
  induction n as [|n IH]; [reflexivity|].
  rewrite poll_log_S. simpl. now rewrite IH.
Qed.

Lemma poll_log_slept (index : Z) (is_userpf : bool) (n : nat) :
  slept (poll_log index is_userpf n) = Z.of_nat n.
Proof.
  induction n as [|n IH]; [reflexivity|].
  rewrite poll_log_S. cbn [slept]. rewrite IH. lia.
Qed.

Lemma poll_log_no_put (index : Z) (is_userpf : bool) (n : nat) :
  filter is_put (poll_log index is_userpf n) = [].
Proof.
  induction n as [|n IH]; [reflexivity|].
  rewrite poll_log_S. simpl. exact IH.
Qed.

Section PollSteps.

Variable host : Host.
Variables (index : Z) (is_userpf : bool).

(** [n] iterations whose reads succeed with a value other than 1, the
    last of them not the last of the budget, leave the loop where it
    would be if entered [n] iterations later. *)
Lemma poll_skip (n : nat) :
  forall fuel wait,
    0 <= wait ->
    wait + Z.of_nat n < POLL_TIMEOUT ->
    (forall w, wait <= w < wait + Z.of_nat n ->
               fst (sysfs_get host index is_userpf "shutdown" w) = EmptyString
               /\ snd (sysfs_get host index is_userpf "shutdown" w) <> 1) ->
    poll host (n + fuel) index is_userpf wait =
    prefix (poll_log index is_userpf n)
           (poll host fuel index is_userpf (wait + Z.of_nat n)).
Proof.
  induction n as [|n IH]; intros fuel wait Hw Hlt Hall.
  - change (Z.of_nat 0) with 0. rewrite Z.add_0_r. simpl. now rewrite prefix_nil.
  - change (S n + fuel)%nat with (S (n + fuel)). rewrite poll_S.
    destruct (Hall wait) as [Herr Hst]; [lia|].
    rewrite Herr. simpl negb. cbv iota.
    apply Z.eqb_neq in Hst. rewrite Hst.
    assert (Hnext : (wait + 1 <? POLL_TIMEOUT) = true) by (apply Z.ltb_lt; lia).
    rewrite Hnext, IH; [ | lia | lia | intros w Hw'; apply Hall; lia ].
    rewrite prefix_app.
    replace (wait + 1 + Z.of_nat n) with (wait + Z.of_nat (S n)) by lia.
    reflexivity.
Qed.

End PollSteps.

(** The run of [shutdownDevice] that sees the status 1 at read number [k]. *)
Lemma shutdownDevice_done_at (host : Host) (index : Z) (is_userpf : bool)
    (k : nat) :
  sysfs_exists host index is_userpf "shutdown" = true ->
  sysfs_put host index is_userpf "shutdown" "1" = EmptyString ->
  (k < 60)%nat ->
  (forall j, (j < k)%nat ->
             fst (sysfs_get host index is_userpf "shutdown" (Z.of_nat j)) = EmptyString
             /\ snd (sysfs_get host index is_userpf "shutdown" (Z.of_nat j)) <> 1) ->
  sysfs_get host index is_userpf "shutdown" (Z.of_nat k) = (EmptyString, 1) ->
  shutdownDevice host index is_userpf =
  Some (0, EvExists index is_userpf "shutdown"
           :: EvPut index is_userpf "shutdown" "1"
           :: poll_log index is_userpf (S k)).
Proof.
  intros Hex Hput Hk Hbefore Hdone.
  rewrite shutdownDevice_run, Hex, Hput. simpl negb. cbv iota.
  replace (Z.to_nat POLL_TIMEOUT) with (k + S (59 - k))%nat
    by (unfold POLL_TIMEOUT; lia).
  rewrite poll_skip; [ | lia | unfold POLL_TIMEOUT; lia | ].
  2:{ intros w Hw. replace w with (Z.of_nat (Z.to_nat w)) by lia.
      apply Hbefore. lia. }
  rewrite poll_S. change (0 + Z.of_nat k) with (Z.of_nat k). rewrite Hdone.
  simpl fst. simpl snd. simpl negb. cbv iota.
  change (1 =? 1) with true. cbv iota.
  unfold ret. rewrite !prefix_Some. f_equal. f_equal. simpl app. f_equal. f_equal.
  replace (S k) with (k + 1)%nat by lia. rewrite poll_log_app. reflexivity.
Qed.

(** X8: when the "shutdown" attribute exists, the write is accepted, the
    first [k] status reads succeed with a value other than 1 and read
    number [k] (counted from 0, [k < 60]) returns exactly 1,
    [shutdownDevice] returns 0 after exactly [k + 1] sleep-and-read
    iterations. *)
Theorem shutdown_done_on_kth_poll (host : Host) (index : Z) (is_userpf : bool)
    (k : nat) :
  sysfs_exists host index is_userpf "shutdown" = true ->
  sysfs_put host index is_userpf "shutdown" "1" = EmptyString ->
  (k < 60)%nat ->
  (forall j, (j < k)%nat ->
             fst (sysfs_get host index is_userpf "shutdown" (Z.of_nat j)) = EmptyString
             /\ snd (sysfs_get host index is_userpf "shutdown" (Z.of_nat j)) <> 1) ->
  sysfs_get host index is_userpf "shutdown" (Z.of_nat k) = (EmptyString, 1) ->
  shutdownDevice host index is_userpf =
  Some (0, EvExists index is_userpf "shutdown"
           :: EvPut index is_userpf "shutdown" "1"
           :: poll_log index is_userpf (S k)).
Proof.
  intros Hex Hput Hk Hbefore Hdone.
  now apply shutdownDevice_done_at.
Qed.

Lemma shutdown_done_on_kth_poll_witness :
  let host := plain_host true true (fun w => if w <? 2 then 0 else 1) accelerator_tree in
  shutdownDevice host 0 true =
  Some (0, EvExists 0 true "shutdown" :: EvPut 0 true "shutdown" "1"
           :: poll_log 0 true 3).
Proof.
  intro host.
  apply (shutdown_done_on_kth_poll host 0 true 2).
  - reflexivity.
  - reflexivity.
  - lia.
  - intros j Hj. unfold host, plain_host. simpl.
    destruct (Z.of_nat j <? 2) eqn:E.
    + split; [reflexivity | discriminate].
    + apply Z.ltb_ge in E. lia.
  - reflexivity.
Defined.

(** X9: when the "shutdown" attribute exists, the write is accepted, the
    first [k] status reads succeed with a value other than 1 and read
    number [k] fails (leaves a message), [shutdownDevice] returns
    [-EINVAL] after [k + 1] iterations; an invocation that asked for the
    offline operation returns [-EINVAL], and its log holds no write of a
    "remove" attribute and no event of the online block. *)
Theorem shutdown_read_failure_stops (host : Host) (argc : Z)
    (answers : list (Z * string)) (index isRescan : Z) (k : nat) :
  2 <= argc ->
  option_loop host answers UINT_MAX 0 0 = OptBreak index 1 isRescan ->
  canProceed host = true ->
  sysfs_exists host index true "shutdown" = true ->
  sysfs_put host index true "shutdown" "1" = EmptyString ->
  (k < 60)%nat ->
  (forall j, (j < k)%nat ->
             fst (sysfs_get host index true "shutdown" (Z.of_nat j)) = EmptyString
             /\ snd (sysfs_get host index true "shutdown" (Z.of_nat j)) <> 1) ->
  fst (sysfs_get host index true "shutdown" (Z.of_nat k)) <> EmptyString ->
  let t := EvExists index true "shutdown" :: EvPut index true "shutdown" "1"
           :: poll_log index true (S k) in
  shutdownDevice host index true = Some (- EINVAL, t)
  /\ hotplugHandler host argc answers = Some (- EINVAL, EvPrompt :: t)
  /\ filter any_remove (EvPrompt :: t) = []
  /\ filter online_event (EvPrompt :: t) = [].
Proof.
  intros Hargc Hopt Hgo Hex Hput Hk Hbefore Hfail t.
  assert (Hsd : shutdownDevice host index true = Some (- EINVAL, t)).
  { rewrite shutdownDevice_run, Hex, Hput. simpl negb. cbv iota.
    replace (Z.to_nat POLL_TIMEOUT) with (k + S (59 - k))%nat
      by (unfold POLL_TIMEOUT; lia).
    rewrite poll_skip; [ | lia | unfold POLL_TIMEOUT; lia | ].
    2:{ intros w Hw. replace w with (Z.of_nat (Z.to_nat w)) by lia.
        apply Hbefore. lia. }
    rewrite poll_S. change (0 + Z.of_nat k) with (Z.of_nat k).
    apply empty_false in Hfail. rewrite Hfail. simpl negb. cbv iota.
    unfold ret. rewrite !prefix_Some. unfold t. f_equal. f_equal.
    simpl app. f_equal. f_equal.
    replace (S k) with (k + 1)%nat by lia. rewrite poll_log_app. reflexivity. }
  split; [exact Hsd|]. split; [ | split ].
  - rewrite hotplugHandler_run.
    apply Z.ltb_ge in Hargc. rewrite Hargc, Hopt, Hgo.
    rewrite offline_online_run, Hsd. reflexivity.
  - exact (poll_log_no_remove index true (S k)).
  - unfold t. simpl.
    assert (H : forall n, filter online_event (poll_log index true n) = []).
    { induction n as [|n IH]; [reflexivity|]. rewrite poll_log_S. simpl. exact IH. }
    apply (H (S k)).
Qed.

Lemma shutdown_read_failure_stops_witness :
  let host := scripted_host (fun _ => 0) true true (fun _ _ => EmptyString)
                (fun w => if w =? 1 then ("read failed", EINVAL) else (EmptyString, 0))
                accelerator_tree IoOk IoOk in
  let answers := [(OPT_OFFLINE, "0000:01:00.0"); (OPT_ONLINE, EmptyString)] in
  let t := EvExists 0 true "shutdown" :: EvPut 0 true "shutdown" "1"
           :: poll_log 0 true 2 in
  shutdownDevice host 0 true = Some (- EINVAL, t)
  /\ hotplugHandler host 4 answers = Some (- EINVAL, EvPrompt :: t)
  /\ filter any_remove (EvPrompt :: t) = []
  /\ filter online_event (EvPrompt :: t) = [].
Proof.
  intros host answers.
  apply (shutdown_read_failure_stops host 4 answers 0 1 1).
  - lia.
  - reflexivity.
  - reflexivity.
  - reflexivity.
  - reflexivity.
  - lia.
  - intros j Hj. assert (j = 0)%nat as -> by lia.
    split; [reflexivity | discriminate].
  - discriminate.
Defined.

(** X10: when the write of "1" to the "shutdown" attribute leaves a
    message, [shutdownDevice] returns [-EINVAL] without a single sleep
    or status read; an invocation that asked for the offline operation
    returns [-EINVAL] with nothing in its log after that write. *)
Theorem shutdown_write_failure_skips_poll (host : Host) (argc : Z)
    (answers : list (Z * string)) (index isRescan : Z) :
  2 <= argc ->
  option_loop host answers UINT_MAX 0 0 = OptBreak index 1 isRescan ->
  canProceed host = true ->
  sysfs_exists host index true "shutdown" = true ->
  sysfs_put host index true "shutdown" "1" <> EmptyString ->
  shutdownDevice host index true =
  Some (- EINVAL, [EvExists index true "shutdown"; EvPut index true "shutdown" "1"])
  /\ hotplugHandler host argc answers =
     Some (- EINVAL, [EvPrompt; EvExists index true "shutdown";
                      EvPut index true "shutdown" "1"]).
Proof.
  intros Hargc Hopt Hgo Hex Hput.
  apply empty_false in Hput.
  assert (Hsd : shutdownDevice host index true =
                Some (- EINVAL, [EvExists index true "shutdown";
                                 EvPut index true "shutdown" "1"])).
  { rewrite shutdownDevice_run, Hex, Hput. reflexivity. }
  split; [exact Hsd|].
  rewrite hotplugHandler_run.
  apply Z.ltb_ge in Hargc. rewrite Hargc, Hopt, Hgo.
  rewrite offline_online_run, Hsd. reflexivity.
Qed.

Lemma shutdown_write_failure_skips_poll_witness :
  let host := scripted_host (fun _ => 0) true true
                (fun _ entry => if String.eqb entry "shutdown" then "busy" else EmptyString)
                (fun _ => (EmptyString, 1)) accelerator_tree IoOk IoOk in
  let answers := [(OPT_OFFLINE, "0000:01:00.0"); (OPT_ONLINE, EmptyString)] in
  shutdownDevice host 0 true =
  Some (- EINVAL, [EvExists 0 true "shutdown"; EvPut 0 true "shutdown" "1"])
  /\ hotplugHandler host 4 answers =
     Some (- EINVAL, [EvPrompt; EvExists 0 true "shutdown";
                      EvPut 0 true "shutdown" "1"]).
Proof.
  intros host answers.
  apply (shutdown_write_failure_skips_poll host 4 answers 0 1).
  - lia.
  - reflexivity.
  - reflexivity.
  - reflexivity.
  - discriminate.
Defined.

(** The three shapes of the log of [shutdownDevice]. *)
Lemma shutdownDevice_shape (host : Host) (index : Z) (is_userpf : bool) :
  exists code,
    shutdownDevice host index is_userpf =
      Some (code, [EvExists index is_userpf "shutdown"])
    \/ exists n,
         (n <= 60)%nat
         /\ shutdownDevice host index is_userpf =
            Some (code, EvExists index is_userpf "shutdown"
                        :: EvPut index is_userpf "shutdown" "1"
                        :: poll_log index is_userpf n).
Proof.
  rewrite shutdownDevice_run.
  destruct (sysfs_exists host index is_userpf "shutdown"); simpl negb; cbv iota;
    [ | eexists; left; reflexivity ].
  destruct (Lib.empty (sysfs_put host index is_userpf "shutdown" "1"));
    simpl negb; cbv iota.
  - destruct (poll_returns host index is_userpf (Z.to_nat POLL_TIMEOUT) 0)
      as (code & n & Hrun & _ & Hn & _);
      [ unfold POLL_TIMEOUT; lia | unfold POLL_TIMEOUT; lia | ].
    exists code. right. exists n. split; [unfold POLL_TIMEOUT in Hn; lia|].
    rewrite Hrun. reflexivity.
  - eexists. right. exists 0%nat. split; [lia | reflexivity].
Qed.

(** X11: on every host [shutdownDevice] returns, and in its log the
    status reads are as many as the sleeps, each sleep is of one second,
    and there are at most 60 of them: the call never sleeps more than
    [POLL_TIMEOUT] seconds. *)
Theorem shutdown_poll_budget (host : Host) (index : Z) (is_userpf : bool) :
  exists code t,
    shutdownDevice host index is_userpf = Some (code, t)
    /\ List.length (filter is_get t) = List.length (filter is_sleep t)
    /\ slept t = Z.of_nat (List.length (filter is_sleep t))
    /\ slept t <= POLL_TIMEOUT.
Proof.
  destruct (shutdownDevice_shape host index is_userpf) as [code [H|(n & Hn & H)]];
    rewrite H; eexists _, _; (split; [reflexivity|]).
  - split; [reflexivity|]. split; [reflexivity|]. unfold POLL_TIMEOUT. simpl. lia.
  - cbn [filter is_get is_sleep slept].
    rewrite poll_log_gets, poll_log_sleeps, poll_log_slept.
    split; [reflexivity|]. split; [reflexivity|]. unfold POLL_TIMEOUT. lia.
Qed.

(** ** The handler block by block *)

Lemma offline_not_online (t : list Event) :
  forallb offline_event t = true -> filter online_event t = [].
Proof.
  induction t as [|e t IH]; [reflexivity|].
  simpl. intros H. apply andb_true_iff in H as [He Ht].
  destruct e; try discriminate He; simpl; auto.
Qed.

Lemma online_no_put (t : list Event) :
  forallb online_event t = true -> filter is_put t = [].
Proof.
  induction t as [|e t IH]; [reflexivity|].
  simpl. intros H. apply andb_true_iff in H as [He Ht].
  destruct e; try discriminate He; simpl; auto.
Qed.

Lemma online_no_target (t : list Event) (e : Event) :
  forallb online_event t = true -> In e t -> device_target e = None.
Proof.
  intros H Hin. rewrite forallb_forall in H. specialize (H e Hin).
  destruct e; try discriminate H; reflexivity.
Qed.

Lemma poll_log_events (index : Z) (is_userpf : bool) (n : nat) (e : Event) :
  In e (poll_log index is_userpf n) ->
  e = EvSleep 1 \/ e = EvGet index is_userpf "shutdown".
Proof.
  induction n as [|n IH]; [intros []|].
  rewrite poll_log_S. intros [<-|[<-|H]]; auto.
Qed.

Section Blocks.

Variable host : Host.

(** What the log of [shutdownDevice] is made of. *)
Lemma shutdown_log_events (index : Z) (is_userpf : bool) (code : Z) (t : list Event) :
  shutdownDevice host index is_userpf = Some (code, t) ->
  forall e, In e t ->
    e = EvExists index is_userpf "shutdown"
    \/ e = EvPut index is_userpf "shutdown" "1"
    \/ e = EvSleep 1
    \/ e = EvGet index is_userpf "shutdown".
Proof.
  intros Hrun e Hin.
  destruct (shutdownDevice_shape host index is_userpf) as [c [H|(n & _ & H)]];
    rewrite Hrun in H; injection H as _ ->.
  - destruct Hin as [<-|[]]. now left.
  - destruct Hin as [<-|[<-|Hin]]; [now left | now right; left | ].
    destruct (poll_log_events _ _ _ _ Hin) as [->| ->]; auto.
Qed.

(** The attribute writes in the log of [shutdownDevice]: none when the
    attribute is absent, the one write of "shutdown" otherwise. *)
Lemma shutdown_log_puts (index : Z) (is_userpf : bool) (code : Z) (t : list Event) :
  shutdownDevice host index is_userpf = Some (code, t) ->
  (code = - ENOENT /\ filter is_put t = [])
  \/ (code <> - ENOENT
      /\ filter is_put t = [EvPut index is_userpf "shutdown" "1"]).
Proof.
  rewrite shutdownDevice_run.
  destruct (sysfs_exists host index is_userpf "shutdown"); simpl negb; cbv iota.
  2:{ intros H. injection H as <- <-. now left. }
  destruct (Lib.empty (sysfs_put host index is_userpf "shutdown" "1"));
    simpl negb; cbv iota.
  2:{ intros H. injection H as <- <-. right. split; [discriminate | reflexivity]. }
  destruct (poll_returns host index is_userpf (Z.to_nat POLL_TIMEOUT) 0)
    as (c & n & Hrun & _ & _ & Hc & _);
    [ unfold POLL_TIMEOUT; lia | unfold POLL_TIMEOUT; lia | ].
  rewrite Hrun, prefix_Some. intros H. injection H as <- <-. right. split.
  - unfold ENOENT, EINVAL, ETIMEDOUT in *. lia.
  - simpl. now rewrite poll_log_no_put.
Qed.

(** The log of the two blocks: offline events, then online events; a
    block whose switch was not given logs nothing; the online block
    logs nothing when the offline block returned. *)
Lemma offline_online_split (index isRemove isRescan : Z) :
  exists code t_off t_on,
    offline_online host index isRemove isRescan = Some (code, (t_off ++ t_on)%list)
    /\ forallb offline_event t_off = true
    /\ forallb online_event t_on = true
    /\ (isRemove = 0 -> t_off = [])
    /\ (isRescan = 0 -> t_on = [])
    /\ (isRemove <> 0 ->
        exists early,
          offline_run host index early t_off
          /\ match early with
             | Some c => c = code /\ t_on = []
             | None => online_part host isRescan = Some (code, t_on)
             end).
Proof.
  destruct (online_part_returns host isRescan) as (c2 & t2 & Hon & Hev & Hoff & _).
  destruct (Z.eq_dec isRemove 0) as [->|Hrm].
  - rewrite offline_online_skip, Hon. exists c2, [], t2.
    split; [reflexivity|]. split; [reflexivity|]. split; [exact Hev|].
    split; [reflexivity|]. split; [ | intros H; now elim H ].
    intros H. now apply Hoff.
  - destruct (offline_online_shape host index isRemove isRescan Hrm)
      as (early & t_off & Hshape & ->).
    pose proof (offline_run_log host _ _ _ Hshape) as Hlog.
    destruct early as [c|].
    + exists c, t_off, []. rewrite app_nil_r.
      split; [reflexivity|]. split; [exact Hlog|]. split; [reflexivity|].
      split; [intros H; now elim Hrm|]. split; [reflexivity|].
      intros _. exists (Some c). split; [exact Hshape | now split].
    + rewrite Hon. exists c2, t_off, t2.
      split; [reflexivity|]. split; [exact Hlog|]. split; [exact Hev|].
      split; [intros H; now elim Hrm|]. split; [intros H; now apply Hoff|].
      intros _. exists None. split; [exact Hshape | reflexivity].
Qed.

(** The run of the handler past the option loop. *)
Lemma hotplugHandler_split (argc : Z) (answers : list (Z * string))
    (index isRemove isRescan : Z) :
  2 <= argc ->
  option_loop host answers UINT_MAX 0 0 = OptBreak index isRemove isRescan ->
  exists code t_off t_on,
    hotplugHandler host argc answers = Some (code, EvPrompt :: t_off ++ t_on)%list
    /\ forallb offline_event t_off = true
    /\ forallb online_event t_on = true
    /\ (isRemove = 0 -> t_off = [])
    /\ (isRescan = 0 -> t_on = [])
    /\ (canProceed host = false -> code = - ECANCELED /\ t_off = [] /\ t_on = [])
    /\ (canProceed host = true -> isRemove <> 0 ->
        exists early,
          offline_run host index early t_off
          /\ match early with
             | Some c => c = code /\ t_on = []
             | None => online_part host isRescan = Some (code, t_on)
             end).
Proof.
  intros Hargc Hopt.
  rewrite hotplugHandler_run.
  apply Z.ltb_ge in Hargc. rewrite Hargc, Hopt.
  destruct (canProceed host).
  - destruct (offline_online_split index isRemove isRescan)
      as (code & t_off & t_on & -> & H1 & H2 & H3 & H4 & H5).
    exists code, t_off, t_on.
    split; [reflexivity|]. split; [exact H1|]. split; [exact H2|].
    split; [exact H3|]. split; [exact H4|]. split; [discriminate|].
    intros _. exact H5.
  - exists (- ECANCELED), [], [].
    split; [reflexivity|]. split; [reflexivity|]. split; [reflexivity|].
    split; [reflexivity|]. split; [reflexivity|]. split; [now repeat split|].
    discriminate.
Qed.

End Blocks.

(** X6: for an invocation that gets past the option loop the log is the
    prompt, then offline events only, then online events only; without
    the offline switch there is no access to the device handle, and
    without the online switch there is neither a directory walk nor a
    rescan stream. *)
Theorem blocks_follow_switches (host : Host) (argc : Z)
    (answers : list (Z * string)) (index isRemove isRescan : Z) :
  2 <= argc ->
  option_loop host answers UINT_MAX 0 0 = OptBreak index isRemove isRescan ->
  exists code t_off t_on,
    hotplugHandler host argc answers = Some (code, EvPrompt :: t_off ++ t_on)%list
    /\ forallb offline_event t_off = true
    /\ forallb online_event t_on = true
    /\ (isRemove = 0 -> t_off = [])
    /\ (isRescan = 0 -> t_on = []).
Proof.
  intros Hargc Hopt.
  destruct (hotplugHandler_split host argc answers index isRemove isRescan Hargc Hopt)
    as (code & t_off & t_on & H & H1 & H2 & H3 & H4 & _).
  exists code, t_off, t_on. auto.
Qed.

Lemma blocks_follow_switches_witness :
  let host := plain_host true true (fun _ => 1) accelerator_tree in
  exists code t_off t_on,
    hotplugHandler host 2 [(OPT_ONLINE, EmptyString)] =
      Some (code, EvPrompt :: t_off ++ t_on)%list
    /\ forallb offline_event t_off = true
    /\ forallb online_event t_on = true
    /\ (0 = 0 -> t_off = [])
    /\ (1 = 0 -> t_on = []).
Proof.
  intro host.
  apply (blocks_follow_switches host 2 [(OPT_ONLINE, EmptyString)] UINT_MAX 0 1).
  - lia.
  - reflexivity.
Defined.

(** The log of the handler: empty on an argument error, the prompt first
    otherwise. *)
Lemma hotplugHandler_log_shape (host : Host) (argc : Z)
    (answers : list (Z * string)) :
  exists code t,
    hotplugHandler host argc answers = Some (code, t)
    /\ ((t = [] /\ (code = - EINVAL \/ code = - ENOENT))
        \/ exists t',
             t = EvPrompt :: t'
             /\ forallb (fun e => offline_event e || online_event e)%bool t' = true
             /\ (canProceed host = false -> t' = [] /\ code = - ECANCELED)).
Proof.
  destruct (Z.ltb_spec argc 2) as [Hlt|Hge].
  - rewrite hotplugHandler_run. apply Z.ltb_lt in Hlt. rewrite Hlt.
    ran. left. auto.
  - destruct (option_loop host answers UINT_MAX 0 0)
      as [c|index isRemove isRescan] eqn:Hopt.
    + rewrite hotplugHandler_run. apply Z.ltb_ge in Hge. rewrite Hge, Hopt.
      ran. left. split; [reflexivity|].
      exact (option_loop_codes host _ _ _ _ _ Hopt).
    + destruct (hotplugHandler_split host argc answers index isRemove isRescan Hge Hopt)
        as (code & t_off & t_on & -> & H1 & H2 & _ & _ & Hno & _).
      ran. right. eexists. split; [reflexivity|]. split.
      * rewrite forallb_app. apply andb_true_iff. split.
        -- rewrite forallb_forall in *. intros e He. now rewrite (H1 e He).
        -- rewrite forallb_forall in *. intros e He. rewrite (H2 e He).
           apply orb_true_r.
      * intros Hc. destruct (Hno Hc) as (-> & -> & ->). now split.
Qed.


(** X16: whenever the handler returns, its log is empty, with an
    argument error as the result, or starts with the one prompt,
    followed by offline and online events only: nothing is done to the
    device or to the bus before the operator is asked.  When the
    operator declines, nothing follows the prompt and the result is
    [-ECANCELED]. *)
Theorem nothing_before_confirmation (host : Host) (argc : Z)
    (answers : list (Z * string)) (code : Z) (t : list Event) :
  hotplugHandler host argc answers = Some (code, t) ->
  (t = [] /\ (code = - EINVAL \/ code = - ENOENT))
  \/ exists t',
       t = EvPrompt :: t'
       /\ forallb (fun e => offline_event e || online_event e)%bool t' = true
       /\ (canProceed host = false -> t' = [] /\ code = - ECANCELED).
Proof.
  intros Hrun.
  destruct (hotplugHandler_log_shape host argc answers) as (c & t0 & Hrun' & Hshape).
  rewrite Hrun in Hrun'. injection Hrun' as <- <-. exact Hshape.
Qed.

Lemma nothing_before_confirmation_witness :
  let host := plain_host false true (fun _ => 1) accelerator_tree in
  let answers := [(OPT_OFFLINE, "0000:01:00.0"); (OPT_ONLINE, EmptyString)] in
  hotplugHandler host 4 answers = Some (- ECANCELED, [EvPrompt])
  /\ (([EvPrompt] = [] /\ (- ECANCELED = - EINVAL \/ - ECANCELED = - ENOENT))
      \/ exists t',
           [EvPrompt] = EvPrompt :: t'
           /\ forallb (fun e => offline_event e || online_event e)%bool t' = true
           /\ (canProceed host = false -> t' = [] /\ - ECANCELED = - ECANCELED)).
Proof.
  intros host answers. split; [reflexivity|].
  apply (nothing_before_confirmation host 4 answers (- ECANCELED) [EvPrompt]).
  reflexivity.
Defined.

(** X12: an offline-only invocation on a device whose status becomes 1
    at read number [k] and whose two "remove" writes are accepted
    returns 0, and its whole log is: the prompt, the existence test, the
    write of "shutdown", [k + 1] sleep-and-read iterations, the write of
    "remove" for the user function, the write of "remove" for the
    management function. *)
Theorem offline_run_to_completion (host : Host) (argc : Z)
    (answers : list (Z * string)) (index : Z) (k : nat) :
  2 <= argc ->
  option_loop host answers UINT_MAX 0 0 = OptBreak index 1 0 ->
  canProceed host = true ->
  sysfs_exists host index true "shutdown" = true ->
  sysfs_put host index true "shutdown" "1" = EmptyString ->
  (k < 60)%nat ->
  (forall j, (j < k)%nat ->
             fst (sysfs_get host index true "shutdown" (Z.of_nat j)) = EmptyString
             /\ snd (sysfs_get host index true "shutdown" (Z.of_nat j)) <> 1) ->
  sysfs_get host index true "shutdown" (Z.of_nat k) = (EmptyString, 1) ->
  sysfs_put host index true "remove" "1" = EmptyString ->
  sysfs_put host index false "remove" "1" = EmptyString ->
  hotplugHandler host argc answers =
  Some (0, EvPrompt :: EvExists index true "shutdown"
           :: EvPut index true "shutdown" "1"
           :: poll_log index true (S k)
           ++ [EvPut index true "remove" "1"; EvPut index false "remove" "1"])%list.
Proof.
  intros Hargc Hopt Hgo Hex Hput Hk Hbefore Hdone Hu Hm.
  rewrite hotplugHandler_run.
  apply Z.ltb_ge in Hargc. rewrite Hargc, Hopt, Hgo.
  rewrite offline_online_run.
  rewrite (shutdownDevice_done_at host index true k Hex Hput Hk Hbefore Hdone).
  rewrite Hu, Hm. simpl. now rewrite app_nil_r.
Qed.

Lemma offline_run_to_completion_witness :
  let host := plain_host true true (fun w => if w <? 2 then 0 else 1) accelerator_tree in
  hotplugHandler host 3 [(OPT_OFFLINE, "0000:01:00.0")] =
  Some (0, EvPrompt :: EvExists 0 true "shutdown"
           :: EvPut 0 true "shutdown" "1"
           :: poll_log 0 true 3
           ++ [EvPut 0 true "remove" "1"; EvPut 0 false "remove" "1"])%list.
Proof.
  intro host.
  apply (offline_run_to_completion host 3 [(OPT_OFFLINE, "0000:01:00.0")] 0 2).
  - lia.
  - reflexivity.
  - reflexivity.
  - reflexivity.
  - reflexivity.
  - lia.
  - intros j Hj. unfold host, plain_host. simpl.
    destruct (Z.of_nat j <? 2) eqn:E.
    + split; [reflexivity | discriminate].
    + apply Z.ltb_ge in E. lia.
  - reflexivity.
  - reflexivity.
  - reflexivity.
Defined.

(** X13: when the shutdown and the removal of the user function
    succeeded and the write of "remove" for the management function
    leaves a message, the handler returns [-EINVAL] right after that
    write: nothing is written to undo the removal of the user function,
    and the online block does not run even when it was asked for. *)
Theorem management_remove_failure_stops (host : Host) (argc : Z)
    (answers : list (Z * string)) (index isRescan : Z) (t1 : list Event) :
  2 <= argc ->
  option_loop host answers UINT_MAX 0 0 = OptBreak index 1 isRescan ->
  canProceed host = true ->
  shutdownDevice host index true = Some (0, t1) ->
  sysfs_put host index true "remove" "1" = EmptyString ->
  sysfs_put host index false "remove" "1" <> EmptyString ->
  hotplugHandler host argc answers =
    Some (- EINVAL,
          EvPrompt :: t1 ++ [EvPut index true "remove" "1";
                             EvPut index false "remove" "1"])%list
  /\ filter online_event t1 = [].
Proof.
  intros Hargc Hopt Hgo Hsd Hu Hm.
  apply empty_false in Hm.
  split.
  - rewrite hotplugHandler_run.
    apply Z.ltb_ge in Hargc. rewrite Hargc, Hopt, Hgo.
    rewrite offline_online_run, Hsd, Hu, Hm. reflexivity.
  - apply offline_not_online. now destruct (shutdown_log host _ _ _ Hsd).
Qed.

Lemma management_remove_failure_stops_witness :
  let host := scripted_host (fun _ => 0) true true
                (fun is_userpf entry =>
                   if (String.eqb entry "remove" && negb is_userpf)%bool
                   then "gone" else EmptyString)
                (fun _ => (EmptyString, 1)) accelerator_tree IoOk IoOk in
  let answers := [(OPT_OFFLINE, "0000:01:00.0"); (OPT_ONLINE, EmptyString)] in
  let t1 := [EvExists 0 true "shutdown"; EvPut 0 true "shutdown" "1";
             EvSleep 1; EvGet 0 true "shutdown"] in
  hotplugHandler host 4 answers =
    Some (- EINVAL,
          EvPrompt :: t1 ++ [EvPut 0 true "remove" "1"; EvPut 0 false "remove" "1"])%list
  /\ filter online_event t1 = [].
Proof.
  intros host answers t1.
  apply (management_remove_failure_stops host 4 answers 0 1 t1).
  - lia.
  - reflexivity.
  - reflexivity.
  - reflexivity.
  - reflexivity.
  - discriminate.
Defined.

(** X17: when the offline operation was asked for on a device whose
    "shutdown" attribute exists, a result of 0 means that a status read
    returned exactly 1 and that both "remove" writes were made, user
    function first, and accepted. *)
Theorem success_means_removed (host : Host) (argc : Z)
    (answers : list (Z * string)) (index isRescan : Z) (t : list Event) :
  2 <= argc ->
  option_loop host answers UINT_MAX 0 0 = OptBreak index 1 isRescan ->
  canProceed host = true ->
  sysfs_exists host index true "shutdown" = true ->
  hotplugHandler host argc answers = Some (0, t) ->
  filter any_remove t = [EvPut index true "remove" "1"; EvPut index false "remove" "1"]
  /\ sysfs_put host index true "remove" "1" = EmptyString
  /\ sysfs_put host index false "remove" "1" = EmptyString
  /\ exists w, 0 <= w < POLL_TIMEOUT
               /\ sysfs_get host index true "shutdown" w = (EmptyString, 1).
Proof.
  intros Hargc Hopt Hgo Hex Hrun.
  destruct (hotplugHandler_split host argc answers index 1 isRescan Hargc Hopt)
    as (code & t_off & t_on & Hrun' & _ & Hev & _ & _ & _ & Hshape).
  rewrite Hrun in Hrun'. injection Hrun' as <- ->.
  destruct (Hshape Hgo) as (early & Hoff & Hearly); [discriminate|].
  destruct Hoff as [t1 Hsd Habs|r t1 Hsd _ _|t1 Hsd Hu|t1 Hsd Hu Hm|t1 Hsd Hu Hm].
  - rewrite Hex in Habs. discriminate Habs.
  - destruct Hearly as [Hc _]. discriminate Hc.
  - destruct Hearly as [Hc _]. discriminate Hc.
  - destruct Hearly as [Hc _]. discriminate Hc.
  - destruct (shutdown_log host _ _ _ Hsd) as [_ Hclean].
    split; [ | split; [now apply empty_true | split; [now apply empty_true|] ] ].
    + simpl. rewrite !filter_app, Hclean, (online_no_remove t_on Hev). reflexivity.
    + destruct (shutdownDevice_returns host index true)
        as (c & t' & Hrun' & _ & _ & _ & _ & Hone).
      rewrite Hsd in Hrun'. injection Hrun' as <- <-. now apply Hone.
Qed.

Lemma success_means_removed_witness :
  let host := plain_host true true (fun w => if w <? 2 then 0 else 1) accelerator_tree in
  let answers := [(OPT_OFFLINE, "0000:01:00.0")] in
  let t := (EvPrompt :: EvExists 0 true "shutdown" :: EvPut 0 true "shutdown" "1"
            :: poll_log 0 true 3
            ++ [EvPut 0 true "remove" "1"; EvPut 0 false "remove" "1"])%list in
  filter any_remove t = [EvPut 0 true "remove" "1"; EvPut 0 false "remove" "1"]
  /\ sysfs_put host 0 true "remove" "1" = EmptyString
  /\ sysfs_put host 0 false "remove" "1" = EmptyString
  /\ exists w, 0 <= w < POLL_TIMEOUT
               /\ sysfs_get host 0 true "shutdown" w = (EmptyString, 1).
Proof.
  intros host answers t.
  apply (success_means_removed host 3 answers 0 0 t).
  - lia.
  - reflexivity.
  - reflexivity.
  - reflexivity.
  - reflexivity.
Defined.

(** ** The option loop *)

Section Options.

Variable host : Host.

(** Where the index of a [break] with [isRemove] set comes from. *)
Lemma option_loop_index (answers : list (Z * string)) :
  forall index0 r0 s0 index isRemove isRescan,
    option_loop host answers index0 r0 s0 = OptBreak index isRemove isRescan ->
    (index = index0 /\ isRemove = r0)
    \/ (isRemove = 1 /\ index <> UINT_MAX
        /\ exists optarg, In (OPT_OFFLINE, optarg) answers
                          /\ bdf2index host optarg = index).
Proof.
  induction answers as [|[opt optarg] rest IH];
    intros index0 r0 s0 index isRemove isRescan H.
  - injection H as <- <- <-. now left.
  - simpl in H.
    destruct (opt =? -1); [injection H as <- <- <-; now left|].
    destruct (opt =? OPT_OFFLINE) eqn:Eoff.
    + apply Z.eqb_eq in Eoff. subst opt.
      destruct (bdf2index host optarg =? UINT_MAX) eqn:Emax; [discriminate|].
      apply Z.eqb_neq in Emax.
      destruct (IH _ _ _ _ _ _ H) as [[-> ->]|(Hr & Hi & a & Hin & Ha)].
      * right. split; [reflexivity|]. split; [exact Emax|].
        exists optarg. split; [now left | reflexivity].
      * right. split; [exact Hr|]. split; [exact Hi|].
        exists a. split; [now right | exact Ha].
    + destruct (opt =? OPT_ONLINE); [ | discriminate ].
      destruct (IH _ _ _ _ _ _ H) as [[-> ->]|(Hr & Hi & a & Hin & Ha)];
        [now left|].
      right. split; [exact Hr|]. split; [exact Hi|].
      exists a. split; [now right | exact Ha].
Qed.

(** On recognized answers the loop is a fold: the index of the last
    offline switch, and each flag set when its switch occurs. *)
Lemma option_loop_recognized (answers : list (Z * string)) :
  forallb (recognized host) answers = true ->
  forall index isRemove isRescan,
    option_loop host answers index isRemove isRescan =
    OptBreak (last_index host answers index)
             (if existsb is_offline_switch answers then 1 else isRemove)
             (if existsb is_online_switch answers then 1 else isRescan).
Proof.
  induction answers as [|[opt optarg] rest IH]; intros Hrec index isRemove isRescan;
    [reflexivity|].
  simpl in Hrec. apply andb_true_iff in Hrec as [Ha Hrest].
  unfold recognized, is_offline_switch, is_online_switch in Ha. simpl in Ha.
  unfold last_index. simpl. unfold is_offline_switch at 1 3, is_online_switch at 1.
  simpl fst. simpl snd.
  destruct (opt =? OPT_OFFLINE) eqn:Eoff.
  - apply Z.eqb_eq in Eoff. subst opt.
    change (OPT_OFFLINE =? -1) with false. change (OPT_OFFLINE =? OPT_ONLINE) with false.
    simpl in Ha. rewrite orb_false_r in Ha. apply negb_true_iff in Ha.
    rewrite Ha. cbv iota. simpl orb.
    rewrite (IH Hrest). unfold last_index.
    destruct (existsb is_offline_switch rest); reflexivity.
  - simpl in Ha. apply Z.eqb_eq in Ha. subst opt.
    change (OPT_ONLINE =? -1) with false. change (OPT_ONLINE =? OPT_ONLINE) with true.
    cbv iota. simpl orb.
    rewrite (IH Hrest). unfold last_index.
    destruct (existsb is_online_switch rest); reflexivity.
Qed.

End Options.

(** X18: when every answer of [getopt_long] is the online switch or an
    offline switch with a resolvable argument, the option loop ends by
    [break]; the device index is the one of the last offline switch,
    [isRemove] is 1 exactly when an offline switch occurs and [isRescan]
    is 1 exactly when an online switch occurs, wherever they stand. *)
Theorem option_loop_last_offline_wins (host : Host) (answers : list (Z * string)) :
  forallb (recognized host) answers = true ->
  option_loop host answers UINT_MAX 0 0 =
  OptBreak (last_index host answers UINT_MAX)
           (if existsb is_offline_switch answers then 1 else 0)
           (if existsb is_online_switch answers then 1 else 0).
Proof.
  intros Hrec. now apply option_loop_recognized.
Qed.

Lemma option_loop_last_offline_wins_witness :
  let host := scripted_host (fun a => if String.eqb a "0000:01:00.0" then 3 else 7)
                true true (fun _ _ => EmptyString) (fun _ => (EmptyString, 1))
                accelerator_tree IoOk IoOk in
  let answers := [(OPT_ONLINE, EmptyString); (OPT_OFFLINE, "0000:01:00.0");
                  (OPT_OFFLINE, "0000:02:00.0")] in
  option_loop host answers UINT_MAX 0 0 =
  OptBreak (last_index host answers UINT_MAX)
           (if existsb is_offline_switch answers then 1 else 0)
           (if existsb is_online_switch answers then 1 else 0).
Proof.
  intros host answers.
  apply (option_loop_last_offline_wins host answers). reflexivity.
Defined.

(** X19: the first answer that is not recognized decides the result,
    whatever follows it: [-ENOENT] when it is an offline switch (its
    argument does not resolve), [-EINVAL] for any other option; the
    handler returns before the prompt, with an empty log. *)
Theorem first_bad_option_rejects (host : Host) (argc : Z)
    (before after : list (Z * string)) (bad : Z * string) :
  2 <= argc ->
  forallb (recognized host) before = true ->
  recognized host bad = false ->
  fst bad <> -1 ->
  hotplugHandler host argc (before ++ bad :: after) =
  Some (if is_offline_switch bad then - ENOENT else - EINVAL, []).
Proof.
  intros Hargc Hrec Hbad Hend.
  assert (Hloop : forall index isRemove isRescan,
             option_loop host (before ++ bad :: after) index isRemove isRescan =
             OptReturn (if is_offline_switch bad then - ENOENT else - EINVAL)).
  { induction before as [|[opt optarg] rest IH]; intros index isRemove isRescan.
    - destruct bad as [opt optarg].
      unfold recognized, is_offline_switch, is_online_switch in *. simpl in *.
      apply Z.eqb_neq in Hend. rewrite Hend.
      destruct (opt =? OPT_OFFLINE).
      + simpl in Hbad. apply orb_false_iff in Hbad as [Hb _].
        apply negb_false_iff in Hb. now rewrite Hb.
      + simpl in Hbad. now rewrite Hbad.
    - simpl in Hrec. apply andb_true_iff in Hrec as [Ha Hrest].
      unfold recognized, is_offline_switch, is_online_switch in Ha. simpl in Ha.
      simpl. destruct (opt =? OPT_OFFLINE) eqn:Eoff.
      + apply Z.eqb_eq in Eoff. subst opt.
        change (OPT_OFFLINE =? -1) with false. cbv iota.
        simpl in Ha. rewrite orb_false_r in Ha. apply negb_true_iff in Ha.
        rewrite Ha. now apply IH.
      + simpl in Ha. apply Z.eqb_eq in Ha. subst opt.
        change (OPT_ONLINE =? -1) with false.
        change (OPT_ONLINE =? OPT_ONLINE) with true. cbv iota. now apply IH. }
  rewrite hotplugHandler_run.
  apply Z.ltb_ge in Hargc. rewrite Hargc, Hloop. reflexivity.
Qed.

Lemma first_bad_option_rejects_witness :
  let host := scripted_host (fun a => if String.eqb a "0000:01:00.0" then 3 else UINT_MAX)
                true true (fun _ _ => EmptyString) (fun _ => (EmptyString, 1))
                accelerator_tree IoOk IoOk in
  hotplugHandler host 6
    ([(OPT_ONLINE, EmptyString); (OPT_OFFLINE, "0000:01:00.0")]
       ++ (OPT_OFFLINE, "nowhere") :: [(63, EmptyString)]) =
  Some (if is_offline_switch (OPT_OFFLINE, "nowhere") then - ENOENT else - EINVAL, []).
Proof.
  intro host.
  apply (first_bad_option_rejects host 6
           [(OPT_ONLINE, EmptyString); (OPT_OFFLINE, "0000:01:00.0")]
           [(63, EmptyString)] (OPT_OFFLINE, "nowhere")).
  - lia.
  - reflexivity.
  - reflexivity.
  - discriminate.
Defined.

(** X14: on every host and for every invocation, each access to the
    device handle in the log is made with an index that is not
    [UINT_MAX] and that [bdf2index] returned for the argument of an
    offline switch of the invocation; the "shutdown" attribute is only
    ever touched on the user function, and no attribute other than
    "shutdown" and "remove" is touched. *)
Theorem device_accesses_use_resolved_index (host : Host) (argc : Z)
    (answers : list (Z * string)) :
  exists code t,
    hotplugHandler host argc answers = Some (code, t)
    /\ forall e index is_userpf entry,
         In e t ->
         device_target e = Some (index, is_userpf, entry) ->
         index <> UINT_MAX
         /\ (exists optarg, In (OPT_OFFLINE, optarg) answers
                            /\ bdf2index host optarg = index)
         /\ ((entry = "shutdown" /\ is_userpf = true) \/ entry = "remove").
Proof.
  destruct (Z.ltb_spec argc 2) as [Hlt|Hge].
  { rewrite hotplugHandler_run. apply Z.ltb_lt in Hlt. rewrite Hlt.
    ran. intros e i pf entry []. }
  destruct (option_loop host answers UINT_MAX 0 0)
    as [c|index isRemove isRescan] eqn:Hopt.
  { rewrite hotplugHandler_run. apply Z.ltb_ge in Hge. rewrite Hge, Hopt.
    ran. intros e i pf entry []. }
  destruct (hotplugHandler_split host argc answers index isRemove isRescan Hge Hopt)
    as (code & t_off & t_on & -> & _ & Hev & Hnone & _ & Hno & Hshape).
  ran. intros e i pf entry Hin Htarget.
  destruct Hin as [<-|Hin]; [discriminate Htarget|].
  apply in_app_or in Hin as [Hin|Hin].
  2:{ rewrite (online_no_target t_on e Hev Hin) in Htarget. discriminate Htarget. }
  destruct (Z.eq_dec isRemove 0) as [Hz|Hnz].
  { rewrite (Hnone Hz) in Hin. destruct Hin. }
  destruct (canProceed host) eqn:Hgo.
  2:{ destruct (Hno eq_refl) as (_ & Hoff & _). rewrite Hoff in Hin. destruct Hin. }
  destruct (option_loop_index host answers _ _ _ _ _ _ Hopt)
    as [[_ Hr]|(_ & Hidx & Harg)]; [contradiction|].
  assert (Hit : i = index /\ ((entry = "shutdown" /\ pf = true) \/ entry = "remove")).
  { assert (Hsd : forall c t1, shutdownDevice host index true = Some (c, t1) ->
                 In e t1 ->
                 i = index /\ ((entry = "shutdown" /\ pf = true) \/ entry = "remove")).
    { intros c t1 Hrun He.
      destruct (shutdown_log_events host _ _ _ _ Hrun e He) as [->|[->|[->| ->]]];
        simpl in Htarget; try discriminate Htarget;
        injection Htarget as <- <- <-; auto. }
    assert (Hrm : forall b, e = EvPut index b "remove" "1" ->
                 i = index /\ ((entry = "shutdown" /\ pf = true) \/ entry = "remove")).
    { intros b ->. simpl in Htarget. injection Htarget as <- <- <-. auto. }
    destruct (Hshape eq_refl Hnz) as (early & Hoff & _).
    destruct Hoff as [t1 Hrun _|r t1 Hrun _ _|t1 Hrun _|t1 Hrun _ _|t1 Hrun _ _];
      try (apply in_app_or in Hin as [Hin|Hin]); eauto.
    - destruct Hin as [<-|[]]. eauto.
    - destruct Hin as [<-|[<-|[]]]; eauto.
    - destruct Hin as [<-|[<-|[]]]; eauto. }
  destruct Hit as [-> Hentry]. auto.
Qed.

(** X15: on every host and for every invocation, the attribute writes
    through the device handle are, in program order, an initial part of
    three writes of "1" to one device: "shutdown" of the user function,
    "remove" of the user function, "remove" of the management
    function.  No attribute is written twice and none out of turn. *)
Theorem attribute_writes_in_fixed_order (host : Host) (argc : Z)
    (answers : list (Z * string)) :
  exists code t,
    hotplugHandler host argc answers = Some (code, t)
    /\ exists index k, filter is_put t = firstn k (offline_writes index).
Proof.
  destruct (Z.ltb_spec argc 2) as [Hlt|Hge].
  { rewrite hotplugHandler_run. apply Z.ltb_lt in Hlt. rewrite Hlt.
    ran. exists 0, 0%nat. reflexivity. }
  destruct (option_loop host answers UINT_MAX 0 0)
    as [c|index isRemove isRescan] eqn:Hopt.
  { rewrite hotplugHandler_run. apply Z.ltb_ge in Hge. rewrite Hge, Hopt.
    ran. exists 0, 0%nat. reflexivity. }
  destruct (hotplugHandler_split host argc answers index isRemove isRescan Hge Hopt)
    as (code & t_off & t_on & -> & _ & Hev & Hnone & _ & Hno & Hshape).
  ran. exists index.
  cbn [filter is_put]. rewrite filter_app, (online_no_put t_on Hev), app_nil_r.
  destruct (Z.eq_dec isRemove 0) as [Hz|Hnz].
  { rewrite (Hnone Hz). exists 0%nat. reflexivity. }
  destruct (canProceed host) eqn:Hgo.
  2:{ destruct (Hno eq_refl) as (_ & -> & _). exists 0%nat. reflexivity. }
  destruct (Hshape eq_refl Hnz) as (early & Hoff & _).
  destruct Hoff as [t1 Hrun _|r t1 Hrun _ _|t1 Hrun _|t1 Hrun _ _|t1 Hrun _ _];
    destruct (shutdown_log_puts host _ _ _ _ Hrun) as [[Hc Hp]|[Hc Hp]];
    try discriminate Hc; rewrite ?filter_app, Hp.
  - exists 0%nat. reflexivity.
  - now elim Hc.
  - exists 0%nat. reflexivity.
  - exists 1%nat. reflexivity.
  - exists 2%nat. reflexivity.
  - exists 3%nat. reflexivity.
  - exists 3%nat. reflexivity.
Qed.

Lemma no_switch_no_operation_witness :
  let host := plain_host true true (fun _ => 1) accelerator_tree in
  no_switch [(63, EmptyString)] = true
  /\ exists code t,
       hotplugHandler host 2 [(63, EmptyString)] = Some (code, t)
       /\ (t = [] \/ t = [EvPrompt])
       /\ (code = - EINVAL \/ code = - ECANCELED \/ code = 0).
Proof.
  intro host. split; [reflexivity|].
  apply (no_switch_no_operation host 2 [(63, EmptyString)]). reflexivity.
Defined.

(** ** The locator on any tree *)

Lemma scan_entries_found (root : Lib.path) (entries : list dirent) :
  forall v d p,
    fst (scan_entries root entries v d) = Some p ->
    p = root /\ existsb d_is_directory entries = true.
Proof.
  induction entries as [|c rest IH]; intros v d p H; [discriminate H|].
  simpl in H. simpl existsb.
  destruct (d_is_directory c); simpl in *; [ | now apply IH in H ].
  split; [ | reflexivity ].
  destruct (read_attr (d_vendor c) v) as [v'|]; [ | now apply IH in H ].
  destruct (read_attr (d_device c) d) as [d'|]; [ | now apply IH in H ].
  destruct (String.eqb v' XILINX_VENDOR && String.eqb d' XILINX_US)%bool;
    [ now injection H | now apply IH in H ].
Qed.

(** X3: on every tree the locator returns the empty path or the path of
    one of the top-level entries of the tree, and that entry has at
    least one child directory: it never returns the path of a child or
    of an entry without child directories. *)
Theorem locator_returns_a_top_level_entry (tree : list bridge) :
  findXilinxRootPort tree = EmptyString
  \/ exists b, In b tree
               /\ findXilinxRootPort tree = b_path b
               /\ existsb d_is_directory (b_entries b) = true.
Proof.
  unfold findXilinxRootPort.
  assert (H : forall v d,
             scan_bridges tree v d = EmptyString
             \/ exists b, In b tree
                          /\ scan_bridges tree v d = b_path b
                          /\ existsb d_is_directory (b_entries b) = true).
  { induction tree as [|b rest IH]; intros v d; [now left|].
    simpl.
    destruct (scan_entries (b_path b) (b_entries b) v d) as [[p|] [v' d']] eqn:E.
    - right. exists b. split; [now left|].
      destruct (scan_entries_found (b_path b) (b_entries b) v d p) as [-> Hdir];
        [now rewrite E | now split].
    - destruct (IH v' d') as [H|(b' & Hin & Hrun & Hdir)]; [now left|].
      right. exists b'. split; [now right | now split]. }
  apply H.
Qed.

Lemma scan_entries_dirs (root : Lib.path) (entries : list dirent) :
  forall v d,
    scan_entries root (filter d_is_directory entries) v d =
    scan_entries root entries v d.
Proof.
  induction entries as [|c rest IH]; intros v d; [reflexivity|].
  simpl. destruct (d_is_directory c) eqn:Hdir; simpl; [ | apply IH ].
  rewrite Hdir. simpl.
  destruct (read_attr (d_vendor c) v) as [v'|]; [ | apply IH ].
  destruct (read_attr (d_device c) d) as [d'|]; [ | apply IH ].
  destruct (String.eqb v' XILINX_VENDOR && String.eqb d' XILINX_US)%bool;
    [ reflexivity | apply IH ].
Qed.

(** X4: entries that are not directories play no part in the search:
    the locator returns the same path on a tree and on the tree without
    them, whatever their "vendor" and "device" attributes hold. *)
Theorem locator_ignores_plain_files (tree : list bridge) :
  findXilinxRootPort (map dirs_only tree) = findXilinxRootPort tree.
Proof.
  unfold findXilinxRootPort.
  assert (H : forall v d, scan_bridges (map dirs_only tree) v d = scan_bridges tree v d).
  { induction tree as [|b rest IH]; intros v d; [reflexivity|].
    simpl. rewrite scan_entries_dirs.
    destruct (scan_entries (b_path b) (b_entries b) v d) as [[p|] [v' d']];
      [reflexivity | apply IH]. }
  apply H.
Qed.

(** ** The rescan on any host *)

Lemma path_append_rescan (root : Lib.path) :
  Lib.empty root = false ->
  Lib.ends_with_separator root = false ->
  Lib.path_append root "rescan" = root ++ "/rescan".
Proof.
  intros He Hs. unfold Lib.path_append. simpl. now rewrite He, Hs.
Qed.

(** X7: an online-only invocation on a settled tree whose first
    top-level entry with a qualifying child has the non-empty path
    [root], not ending in a separator, with a rescan stream that opens
    and writes, returns 0; its whole log is: the prompt, the directory
    walk, the opening of [root/rescan], one write of "1" to it, its
    closing. *)
Theorem online_rescans_located_root_port (host : Host) (argc : Z)
    (answers : list (Z * string)) (index : Z) (root : Lib.path) :
  2 <= argc ->
  option_loop host answers UINT_MAX 0 0 = OptBreak index 0 1 ->
  canProceed host = true ->
  settled_tree (sysfs_tree host) = true ->
  find_root_port_spec (sysfs_tree host) = root ->
  Lib.empty root = false ->
  Lib.ends_with_separator root = false ->
  ofs_open host (root ++ "/rescan") = IoOk ->
  ofs_write host (root ++ "/rescan") = IoOk ->
  hotplugHandler host argc answers =
  Some (0, [EvPrompt; EvScan SYSFS_PATH; EvOpen (root ++ "/rescan");
            EvWrite (root ++ "/rescan") "1"; EvClose (root ++ "/rescan")]).
Proof.
  intros Hargc Hopt Hgo Hset Hspec Hne Hsep Hopen Hwrite.
  assert (Hpath : rescan_path host = root ++ "/rescan").
  { unfold rescan_path, findXilinxRootPort.
    rewrite (scan_bridges_settled (sysfs_tree host) Hset EmptyString EmptyString);
      [ | reflexivity ].
    rewrite Hspec. now apply path_append_rescan. }
  rewrite hotplugHandler_run.
  apply Z.ltb_ge in Hargc. rewrite Hargc, Hopt, Hgo.
  rewrite offline_online_skip. unfold online_part. simpl.
  rewrite hotplugRescan_run, Hpath, Hopen, Hwrite. reflexivity.
Qed.

Lemma online_rescans_located_root_port_witness :
  let host := plain_host true true (fun _ => 1) (foreign_tree ++ accelerator_tree) in
  hotplugHandler host 2 [(OPT_ONLINE, EmptyString)] =
  Some (0, [EvPrompt; EvScan SYSFS_PATH;
            EvOpen ("/sys/bus/pci/devices/0000:00:01.0" ++ "/rescan");
            EvWrite ("/sys/bus/pci/devices/0000:00:01.0" ++ "/rescan") "1";
            EvClose ("/sys/bus/pci/devices/0000:00:01.0" ++ "/rescan")]).
Proof.
  intro host.
  apply (online_rescans_located_root_port host 2 [(OPT_ONLINE, EmptyString)]
           UINT_MAX "/sys/bus/pci/devices/0000:00:01.0").
  - lia.
  - reflexivity.
  - reflexivity.
  - reflexivity.
  - reflexivity.
  - reflexivity.
  - reflexivity.
  - reflexivity.
  - reflexivity.
Defined.
